(** * lcdproc sevenseg driver: I2C transport, HD44780 4-bit framing and
    seven-segment text driver.

    Shallow embedding of [server/drivers/sevenseg-drivers.h] (the i2c
    connection type and the text-mode sevenseg driver) together with the
    properties of the driver that its specification states. *)

From Stdlib Require Import ZArith Lia Bool List Ascii String.
From stdpp Require Import base list.
Import ListNotations.

Local Open Scope Z_scope.

(** ** Machine integers *)

(** Conversion to [unsigned char]: reduction modulo 2^8. *)
Definition u8 (x : Z) : Z := x mod 256.

(** C truth value of an integer expression. *)
Definition nonzero (x : Z) : bool := negb (x =? 0).

(** The range of [int] (32 bits) and of [long] (64 bits). *)
Definition INT_MAX : Z := 2 ^ 31 - 1.
Definition LONG_MAX : Z := 2 ^ 63 - 1.
Definition LONG_MIN : Z := - 2 ^ 63.

(** Conversion to [int]: the low 32 bits, read in two's complement. *)
Definition wrap_int (x : Z) : Z := (x + 2 ^ 31) mod 2 ^ 32 - 2 ^ 31.

(** The product of two [int]s as the machine computes it.  A product
    outside the range of [int] is undefined in C; the model gives the
    low 32 bits of it. *)
Definition int_mul (a b : Z) : Z := wrap_int (a * b).

(** ** Report levels of [shared/report.h] *)

Inductive ReportLevel : Type :=
| RPT_CRIT | RPT_ERR | RPT_WARNING | RPT_NOTICE | RPT_INFO | RPT_DEBUG.

Definition ReportLevel_eqb (a b : ReportLevel) : bool :=
  match a, b with
  | RPT_CRIT, RPT_CRIT | RPT_ERR, RPT_ERR | RPT_WARNING, RPT_WARNING
  | RPT_NOTICE, RPT_NOTICE | RPT_INFO, RPT_INFO | RPT_DEBUG, RPT_DEBUG => true
  | _, _ => false
  end.

(** ** The i2c connection type *)

Module I2c.

(** What the driver does to the outside world, in program order. *)
Inductive Event : Type :=
| BusWrite (val : Z)                       (* i2c_write_no_ack(p->i2c, {val}, 1) *)
| Report (lvl : ReportLevel) (fmt : string) (* report / drv_report *)
| Pause (usecs : Z).                       (* sevenseg_functions->uPause(p, usecs) *)

(** The world the driver runs in.  [bus_acks] holds the outcome of each
    coming call of [i2c_write_no_ack] ([true]: the call returns a value
    [>= 0]); once the list is used up every write succeeds.
    [no_more_errormsgs] is the function-local [static int] of [i2c_out]. *)
Record World : Type := mkWorld {
  bus_acks : list bool;
  no_more_errormsgs : bool;
  trace : list Event
}.

Definition M (A : Type) : Type := World -> A * World.

Definition ret {A} (a : A) : M A := fun w => (a, w).
Definition bind {A B} (m : M A) (k : A -> M B) : M B :=
  fun w => let (a, w') := m w in k a w'.

Definition result {A} (m : M A) (w : World) : A := fst (m w).
Definition exec {A} (m : M A) (w : World) : World := snd (m w).

Declare Scope io_scope.
Delimit Scope io_scope with io.
Notation "x <- c1 ;; c2" := (bind c1 (fun x => c2))
  (at level 100, c1 at next level, c2 at level 200, right associativity) : io_scope.
Notation "c1 ;; c2" := (bind c1 (fun _ => c2))
  (at level 100, c2 at level 200, right associativity) : io_scope.
Local Open Scope io_scope.

Definition emit (e : Event) : M unit :=
  fun w => (tt, mkWorld (bus_acks w) (no_more_errormsgs w) (trace w ++ [e])).

(** [if (c) stmt;] *)
Definition when (c : bool) (m : M unit) : M unit := if c then m else ret tt.

(** [i2c.h]: one write transaction on the bus; the result is [true] when
    the C function returns a value [>= 0]. *)
Definition i2c_write_no_ack (data : list Z) : M bool :=
  fun w =>
    let tr := trace w ++ map BusWrite data in
    match bus_acks w with
    | [] => (true, mkWorld [] (no_more_errormsgs w) tr)
    | a :: rest => (a, mkWorld rest (no_more_errormsgs w) tr)
    end.

Definition drv_report (lvl : ReportLevel) (fmt : string) : M unit :=
  emit (Report lvl fmt).

Definition get_no_more_errormsgs : M bool := fun w => (no_more_errormsgs w, w).
Definition set_no_more_errormsgs (b : bool) : M unit :=
  fun w => (tt, mkWorld (bus_acks w) b (trace w)).

(** The fields of the driver's private data that the i2c connection type
    uses.  [have_backlight_pin] stands for the macro of that name. *)
Record PrivateData : Type := mkPrivateData {
  port : Z;
  i2c : option Z;
  delayBus : Z;
  have_backlight_pin : bool;
  i2c_backlight_invert : Z;
  i2c_line_RS : Z;
  i2c_line_EN : Z;
  i2c_line_BL : Z;
  i2c_line_D4 : Z;
  i2c_line_D5 : Z;
  i2c_line_D6 : Z;
  i2c_line_D7 : Z;
  backlight_bit : Z
}.

Definition set_backlight_bit (p : PrivateData) (b : Z) : PrivateData :=
  mkPrivateData (port p) (i2c p) (delayBus p) (have_backlight_pin p)
    (i2c_backlight_invert p) (i2c_line_RS p) (i2c_line_EN p) (i2c_line_BL p)
    (i2c_line_D4 p) (i2c_line_D5 p) (i2c_line_D6 p) (i2c_line_D7 p) b.

Definition set_i2c (p : PrivateData) (h : option Z) : PrivateData :=
  mkPrivateData (port p) h (delayBus p) (have_backlight_pin p)
    (i2c_backlight_invert p) (i2c_line_RS p) (i2c_line_EN p) (i2c_line_BL p)
    (i2c_line_D4 p) (i2c_line_D5 p) (i2c_line_D6 p) (i2c_line_D7 p)
    (backlight_bit p).

Definition I2C_ADDR_MASK : Z := 0x7f.

Definition uPause (p : PrivateData) (usecs : Z) : M unit := emit (Pause usecs).

(** [static void i2c_out(PrivateData *p, unsigned char val)] *)
Definition i2c_out (p : PrivateData) (val : Z) : M unit :=
  let val := u8 val in
  let data := [val] in
  ok <- i2c_write_no_ack data ;;
  if negb ok then
    quiet <- get_no_more_errormsgs ;;
    drv_report (if quiet then RPT_DEBUG else RPT_ERR)
               "sevenseg: I2C: i2c write data %u failed: %s" ;;
    set_no_more_errormsgs true
  else ret tt.

Section Driver.

(** Constants and collaborators that are declared outside the file. *)
Variable RS_INSTR : Z.
Variable IF_4BIT : Z.
Variable I2C_DEFAULT_DEVICE : string.
Variable i2c_open : string -> Z -> option Z.
Variable common_init : PrivateData -> Z -> M PrivateData.

(** [void i2c_sevenseg_senddata(PrivateData *p, unsigned char displayID,
                               unsigned char flags, unsigned char ch)] *)
Definition i2c_sevenseg_senddata (p : PrivateData) (displayID flags ch : Z) : M unit :=
  let flags := u8 flags in
  let ch := u8 ch in
  let portControl := 0 in
  let h := 0 in
  let l := 0 in
  let h := if nonzero (Z.land ch 0x80) then u8 (Z.lor h (i2c_line_D7 p)) else h in
  let h := if nonzero (Z.land ch 0x40) then u8 (Z.lor h (i2c_line_D6 p)) else h in
  let h := if nonzero (Z.land ch 0x20) then u8 (Z.lor h (i2c_line_D5 p)) else h in
  let h := if nonzero (Z.land ch 0x10) then u8 (Z.lor h (i2c_line_D4 p)) else h in
  let l := if nonzero (Z.land ch 0x08) then u8 (Z.lor l (i2c_line_D7 p)) else l in
  let l := if nonzero (Z.land ch 0x04) then u8 (Z.lor l (i2c_line_D6 p)) else l in
  let l := if nonzero (Z.land ch 0x02) then u8 (Z.lor l (i2c_line_D5 p)) else l in
  let l := if nonzero (Z.land ch 0x01) then u8 (Z.lor l (i2c_line_D4 p)) else l in
  let portControl := if flags =? RS_INSTR then 0 else u8 (i2c_line_RS p) in
  let portControl := u8 (Z.lor portControl (backlight_bit p)) in
  i2c_out p (Z.lor portControl h) ;;
  when (nonzero (delayBus p)) (uPause p 1) ;;
  i2c_out p (Z.lor (Z.lor (i2c_line_EN p) portControl) h) ;;
  when (nonzero (delayBus p)) (uPause p 1) ;;
  i2c_out p (Z.lor portControl h) ;;
  i2c_out p (Z.lor portControl l) ;;
  when (nonzero (delayBus p)) (uPause p 1) ;;
  i2c_out p (Z.lor (Z.lor (i2c_line_EN p) portControl) l) ;;
  when (nonzero (delayBus p)) (uPause p 1) ;;
  i2c_out p (Z.lor portControl l).

(** [void i2c_sevenseg_backlight(PrivateData *p, unsigned char state)];
    the updated private data is the result. *)
Definition i2c_sevenseg_backlight (p : PrivateData) (state : Z) : M PrivateData :=
  let state := u8 state in
  let p :=
    if i2c_backlight_invert p =? 0 then
      set_backlight_bit p
        (if negb (have_backlight_pin p) || nonzero state then 0 else i2c_line_BL p)
    else
      set_backlight_bit p
        (if have_backlight_pin p && nonzero state then i2c_line_BL p else 0) in
  i2c_out p (backlight_bit p) ;;
  ret p.

(** The power-up part of [sevenseg_init_i2c]: from the first [i2c_out]
    to the last [uPause] before [common_init]. *)
Definition powerup (p : PrivateData) : M unit :=
  let EN := i2c_line_EN p in
  let D4 := i2c_line_D4 p in
  let D5 := i2c_line_D5 p in
  let slow := nonzero (delayBus p) in
  i2c_out p (Z.lor D4 D5) ;;
  when slow (uPause p 1) ;;

  i2c_out p (Z.lor (Z.lor EN D4) D5) ;;
  when slow (uPause p 1) ;;
  i2c_out p (Z.lor D4 D5) ;;
  uPause p 15000 ;;

  i2c_out p (Z.lor (Z.lor EN D4) D5) ;;
  when slow (uPause p 1) ;;
  i2c_out p (Z.lor D4 D5) ;;
  uPause p 5000 ;;

  i2c_out p (Z.lor (Z.lor EN D4) D5) ;;
  when slow (uPause p 1) ;;
  i2c_out p (Z.lor D4 D5) ;;
  uPause p 100 ;;

  i2c_out p (Z.lor (Z.lor EN D4) D5) ;;
  when slow (uPause p 1) ;;
  i2c_out p (Z.lor D4 D5) ;;
  uPause p 100 ;;

  i2c_out p D5 ;;
  when slow (uPause p 1) ;;

  i2c_out p (Z.lor EN D5) ;;
  when slow (uPause p 1) ;;
  i2c_out p D5 ;;
  uPause p 100.

(** [int sevenseg_init_i2c(Driver *drvthis)].  [device] is the value
    of the [Device] setting when there is one; the result is the return
    code and the private data as the function leaves it.  The three
    assignments to the function table [sevenseg_functions] leave no
    mark on the bus and are not modelled. *)
Definition sevenseg_init_i2c (device : option string) (p : PrivateData)
  : M (Z * PrivateData) :=
  let device := String.substring 0 255 (default I2C_DEFAULT_DEVICE device) in
  emit (Report RPT_INFO "sevenseg: I2C: Using device '%s' and address 0x%02X for a %s") ;;
  let p := set_i2c p (i2c_open device (Z.land (port p) I2C_ADDR_MASK)) in
  match i2c p with
  | None =>
      emit (Report RPT_ERR "sevenseg: I2C: connecting to device '%s' slave 0x%02X failed:") ;;
      ret (-1, p)
  | Some _ =>
      powerup p ;;
      p' <- common_init p IF_4BIT ;;
      ret (0, p')
  end.

End Driver.

End I2c.

(** ** The sevenseg text driver *)

Module Sevenseg.

(** *** Segment patterns *)

(** Modelled from the spec: the segment bit positions of
    [map_to_7segment.h], which is not part of the sources at hand: the
    seven segments A to G sit on bits 0 to 6 of a pattern, bit 7 is
    reserved. *)
Definition BIT_SEG7_A : Z := 0.
Definition BIT_SEG7_B : Z := 1.
Definition BIT_SEG7_C : Z := 2.
Definition BIT_SEG7_D : Z := 3.
Definition BIT_SEG7_E : Z := 4.
Definition BIT_SEG7_F : Z := 5.
Definition BIT_SEG7_G : Z := 6.

(** [unsigned char flip_seg7(unsigned char val)].  In C [<<] binds
    tighter than [&], which binds tighter than [?:]. *)
Definition flip_seg7 (val : Z) : Z :=
  let val := u8 val in
  let flipped := 0 in
  let flipped := u8 (Z.lor flipped
    (if nonzero (Z.land val (Z.shiftl 1 BIT_SEG7_A)) then Z.shiftl 1 BIT_SEG7_D else 0)) in
  let flipped := u8 (Z.lor flipped
    (if nonzero (Z.land val (Z.shiftl 1 BIT_SEG7_B)) then Z.shiftl 1 BIT_SEG7_E else 0)) in
  let flipped := u8 (Z.lor flipped
    (if nonzero (Z.land val (Z.shiftl 1 BIT_SEG7_C)) then Z.shiftl 1 BIT_SEG7_F else 0)) in
  let flipped := u8 (Z.lor flipped
    (if nonzero (Z.land val (Z.shiftl 1 BIT_SEG7_D)) then Z.shiftl 1 BIT_SEG7_A else 0)) in
  let flipped := u8 (Z.lor flipped
    (if nonzero (Z.land val (Z.shiftl 1 BIT_SEG7_E)) then Z.shiftl 1 BIT_SEG7_B else 0)) in
  let flipped := u8 (Z.lor flipped
    (if nonzero (Z.land val (Z.shiftl 1 BIT_SEG7_F)) then Z.shiftl 1 BIT_SEG7_C else 0)) in
  let flipped := u8 (Z.lor flipped (Z.land val (Z.shiftl 1 BIT_SEG7_G))) in
  flipped.

(** *** Private data and the frame buffer *)

Inductive ConnectionType : Type :=
| SEVENSEG_CT_I2C | SEVENSEG_CT_SPI | SEVENSEG_CT_UNKNOWN.

Inductive IfType : Type := IF_TYPE_I2C | IF_TYPE_SPI | IF_TYPE_UNKNOWN.

(** Characters are the integer values of C [char]s; the frame buffer
    is the row-major array [framebuf], empty while it is not allocated. *)
Record PrivateData : Type := mkPrivateData {
  width : Z;
  height : Z;
  framebuf : list Z;
  connectiontype : ConnectionType
}.

Definition set_size (p : PrivateData) (w h : Z) : PrivateData :=
  mkPrivateData w h (framebuf p) (connectiontype p).
Definition set_framebuf (p : PrivateData) (fb : list Z) : PrivateData :=
  mkPrivateData (width p) (height p) fb (connectiontype p).
Definition set_connectiontype (p : PrivateData) (c : ConnectionType) : PrivateData :=
  mkPrivateData (width p) (height p) (framebuf p) c.

Definition SPACE : Z := 32.
Definition NUL : Z := 0.

(** [memset(buf, c, n)] on a freshly allocated buffer. *)
Definition memset (c : Z) (n : Z) : list Z := repeat c (Z.to_nat n).


(** [p->framebuf[idx] = c].  The store is only reached with an index
    inside the buffer as long as the buffer holds [width * height]
    cells; stdpp's insert leaves the list alone elsewhere. *)
Definition store (fb : list Z) (idx : Z) (c : Z) : list Z :=
  <[Z.to_nat idx := c]> fb.

(** The [for] loop of [sevenseg_string]: [s] is what is left of the
    string from index [i] on, [x] the current column. *)
Fixpoint string_loop (p : PrivateData) (y x : Z) (s : list Z) (fb : list Z) : list Z :=
  match s with
  | [] => fb
  | c :: s' =>
      if negb (c =? NUL) && (x <? width p) then
        string_loop p y (x + 1) s'
          (if 0 <=? x then store fb (y * width p + x) c else fb)
      else fb
  end.

(** [void sevenseg_string(Driver *drvthis, int x, int y, const char string[])].
    The end of the list stands for the terminating NUL. *)
Definition sevenseg_string (p : PrivateData) (x y : Z) (string : list Z) : PrivateData :=
  let x := x - 1 in
  let y := y - 1 in
  if (y <? 0) || (height p <=? y) then p
  else set_framebuf p (string_loop p y x string (framebuf p)).

(** [void sevenseg_chr(Driver *drvthis, int x, int y, char c)]: the new
    private data and the bytes printed on stdout. *)
Definition sevenseg_chr (p : PrivateData) (x y : Z) (c : Z) : PrivateData * list Z :=
  let y := y - 1 in
  let x := x - 1 in
  let p :=
    if (0 <=? x) && (0 <=? y) && (x <? width p) && (y <? height p)
    then set_framebuf p (store (framebuf p) (y * width p + x) c)
    else p in
  (p, [u8 c; 10]).

(** *** printf conversions *)

Definition hex_digit (d : Z) : Z := if d <? 10 then 48 + d else 87 + d.

Fixpoint hex_digits (fuel : nat) (n : Z) (acc : list Z) : list Z :=
  match fuel with
  | O => acc
  | S fuel' =>
      let acc' := hex_digit (n mod 16) :: acc in
      if n / 16 =? 0 then acc' else hex_digits fuel' (n / 16) acc'
  end.

(** [printf("%02x ", v)] for an [int] argument: the value is read as an
    [unsigned int] of 32 bits, printed in at least two hexadecimal
    digits and followed by a space. *)
Definition printf_02x_space (v : Z) : list Z :=
  let ds := hex_digits 8 (v mod 2 ^ 32) [] in
  (if (length ds <? 2)%nat then [48] else []) ++ ds ++ [32].

Section Flush.

Variable LCD_MAX_WIDTH : Z.
(** The conversion map [map_seg7] and [map_to_seg7] of
    [map_to_7segment.h]. *)
Variable SegMap : Type.
Variable map_seg7 : SegMap.
Variable map_to_seg7 : SegMap -> Z -> Z.

(** The [for] loop of [sevenseg_flush], from [i] for [n] more rounds. *)
Fixpoint flush_loop (out : list Z) (i : nat) (n : nat) : list Z :=
  match n with
  | O => []
  | S n' => printf_02x_space (map_to_seg7 map_seg7 (nth i out 0)) ++ flush_loop out (S i) n'
  end.

(** [void sevenseg_flush(Driver *drvthis)]: the bytes printed on stdout.
    [out] has [LCD_MAX_WIDTH] cells; [memcpy] reads [width] cells of the
    frame buffer and [out[p->width] = 0] stores one cell further, so the
    code has no defined result ([None]) unless [0 <= width < LCD_MAX_WIDTH]
    and the frame buffer holds [width] cells. *)
Definition sevenseg_flush (p : PrivateData) : option (list Z) :=
  if (0 <=? width p) && (width p <? LCD_MAX_WIDTH)
     && (width p <=? Z.of_nat (length (framebuf p)))
  then
    let out := firstn (Z.to_nat (width p)) (framebuf p) in
    let out := out ++ [NUL] in
    Some ([13] ++ flush_loop out 0 (Z.to_nat (width p)))
  else None.

End Flush.

(** *** Driver initialisation *)

Definition SEVENSEG_DEFAULT_SIZE : string := "20x4".

Definition char_code (c : ascii) : Z := Z.of_N (N_of_ascii c).

Definition isspace (c : ascii) : bool :=
  (char_code c =? 32) || ((9 <=? char_code c) && (char_code c <=? 13)).

Definition isdigit (c : ascii) : bool :=
  (48 <=? char_code c) && (char_code c <=? 57).

Definition tolower (c : ascii) : ascii :=
  if (65 <=? char_code c) && (char_code c <=? 90)
  then ascii_of_N (N_of_ascii c + 32) else c.

Fixpoint string_map (f : ascii -> ascii) (s : string) : string :=
  match s with
  | EmptyString => EmptyString
  | String c s' => String (f c) (string_map f s')
  end.

(** [strcasecmp(a, b) == 0] *)
Definition strcasecmp_eq (a b : string) : bool :=
  String.eqb (string_map tolower a) (string_map tolower b).

(** [strncpy(buf, src, sizeof(buf)); buf[sizeof(buf) - 1] = 0] for a
    buffer of 256 bytes. *)
Definition strncpy_buf (src : string) : string := String.substring 0 255 src.

Fixpoint skip_space (s : string) : string :=
  match s with
  | String c s' => if isspace c then skip_space s' else s
  | EmptyString => s
  end.

Fixpoint scan_digits (s : string) (acc : Z) : Z * string :=
  match s with
  | String c s' =>
      if isdigit c then scan_digits s' (10 * acc + (char_code c - 48)) else (acc, s)
  | EmptyString => (acc, s)
  end.

Inductive Conversion : Type :=
| Converted (v : Z) (rest : string)
| MatchingFailure
| InputFailure.

(** What a [%d] directive stores for the number [v] that was written:
    the C library converts the digits to a [long], which stops at
    [LONG_MIN] and [LONG_MAX], and stores the low 32 bits of it in the
    [int]. *)
Definition scanned_int (v : Z) : Z := wrap_int (Z.max LONG_MIN (Z.min LONG_MAX v)).

(** One [%d] directive of [sscanf]: white space is skipped, then an
    optional sign and at least one decimal digit are read, and the
    number is stored as [scanned_int] says. *)
Definition scan_d (s : string) : Conversion :=
  match skip_space s with
  | EmptyString => InputFailure
  | String c s' =>
      let '(neg, t) :=
        if Ascii.eqb c "-" then (true, s')
        else if Ascii.eqb c "+" then (false, s')
        else (false, String c s') in
      match t with
      | String d _ =>
          if isdigit d
          then let (v, rest) := scan_digits t 0 in
               Converted (scanned_int (if neg then - v else v)) rest
          else MatchingFailure
      | EmptyString => MatchingFailure
      end
  end.

(** [sscanf(buf, "%dx%d", &w, &h)]: the return value and the contents
    of [w] and [h] afterwards, [w0] and [h0] being their contents
    before. *)
Definition sscanf_dxd (buf : string) (w0 h0 : Z) : Z * Z * Z :=
  match scan_d buf with
  | InputFailure => (-1, w0, h0)
  | MatchingFailure => (0, w0, h0)
  | Converted w rest =>
      match rest with
      | String c rest' =>
          if Ascii.eqb c "x" then
            match scan_d rest' with
            | Converted h _ => (2, w, h)
            | _ => (1, w, h0)
            end
          else (1, w, h0)
      | EmptyString => (1, w, h0)
      end
  end.

Inductive LogEntry : Type :=
| Log (lvl : ReportLevel) (fmt : string) (args : list string).

Inductive InitFn : Type := sevenseg_init_i2c | sevenseg_init_spi.

Record ConnectionMapping : Type := mkConnectionMapping {
  cm_name : option string;
  cm_connectiontype : ConnectionType;
  cm_if_type : IfType;
  cm_init_fn : option InitFn
}.

(** What [sevenseg_init] asks of its [Driver] and of the allocator. *)
Record Driver : Type := mkDriver {
  name : string;
  calloc_ok : bool;
  store_private_ptr : Z;
  request_display_width : Z;
  request_display_height : Z;
  config_Size : option string;
  config_ConnectionType : option string;
  malloc_ok : bool
}.

Section Init.

Variable LCD_MAX_WIDTH : Z.
Variable LCD_MAX_HEIGHT : Z.
Variable HAVE_I2C : bool.
Variable HAVE_SPI : bool.

Definition connectionMapping : list ConnectionMapping :=
  (if HAVE_I2C
   then [mkConnectionMapping (Some "i2c"%string) SEVENSEG_CT_I2C IF_TYPE_I2C (Some sevenseg_init_i2c)]
   else []) ++
  (if HAVE_SPI
   then [mkConnectionMapping (Some "spi"%string) SEVENSEG_CT_SPI IF_TYPE_SPI (Some sevenseg_init_spi)]
   else []) ++
  [mkConnectionMapping None SEVENSEG_CT_UNKNOWN IF_TYPE_UNKNOWN None].

(** The search loop over [connectionMapping]: the first entry whose name
    is [NULL] or equals [s] without regard to case. *)
Fixpoint find_connection (s : string) (tbl : list ConnectionMapping)
  : option ConnectionMapping :=
  match tbl with
  | [] => None
  | e :: tbl' =>
      match cm_name e with
      | None => Some e
      | Some n => if strcasecmp_eq s n then Some e else find_connection s tbl'
      end
  end.

(** The block of [sevenseg_init] under the comment "Set display sizes". *)
Definition init_size (drvthis : Driver) (p : PrivateData) : PrivateData * list LogEntry :=
  if (0 <? request_display_width drvthis) && (0 <? request_display_height drvthis)
  then (set_size p (request_display_width drvthis) (request_display_height drvthis), [])
  else
    let buf := strncpy_buf (default SEVENSEG_DEFAULT_SIZE (config_Size drvthis)) in
    let '(n, w, h) := sscanf_dxd buf (width p) (height p) in
    let p := set_size p w h in
    if negb (n =? 2)
       || (width p <=? 0) || (LCD_MAX_WIDTH <? width p)
       || (height p <=? 0) || (LCD_MAX_HEIGHT <? height p)
    then
      let '(_, w, h) := sscanf_dxd SEVENSEG_DEFAULT_SIZE (width p) (height p) in
      (set_size p w h,
       [Log RPT_WARNING "%s: cannot read Size: %s; using default %s"
            [name drvthis; buf; SEVENSEG_DEFAULT_SIZE]])
    else (p, []).

(** What is left of [sevenseg_init] once the size is known: connection
    type and frame buffer.  The reports on the backlight type read
    fields that the private data of this driver does not have and are
    left out.  The size of the frame buffer is the [int] product
    [p->width * p->height]; [malloc_ok] is the answer of the allocator
    to the request of that size. *)
Definition init_rest (drvthis : Driver) (p : PrivateData)
  : Z * PrivateData * list LogEntry :=
  let s := default "i2c"%string (config_ConnectionType drvthis) in
  match find_connection s connectionMapping with
  | None | Some (mkConnectionMapping None _ _ _) =>
      (-1, p, [Log RPT_ERR "%s: unknown ConnectionType: %s" [name drvthis; s]])
  | Some (mkConnectionMapping (Some cname) ct if_type init_fn) =>
      let p := set_connectiontype p ct in
      let log :=
        [Log RPT_INFO "HD44780: using ConnectionType: %s" [cname];
         Log RPT_INFO "HD44780: selecting Model: %s" []] in
      if negb (malloc_ok drvthis) then
        (-1, p, log ++ [Log RPT_ERR "%s: unable to create framebuffer" [name drvthis]])
      else
        let p := set_framebuf p (memset SPACE (int_mul (width p) (height p))) in
        (0, p, log ++ [Log RPT_DEBUG "%s: init() done" [name drvthis]])
  end.

(** [MODULE_EXPORT int sevenseg_init(Driver *drvthis)]: the return
    code, the private data kept by the driver and what was reported. *)
Definition sevenseg_init (drvthis : Driver) : Z * option PrivateData * list LogEntry :=
  if negb (calloc_ok drvthis) then (-1, None, [])
  else
    let p := mkPrivateData 0 0 [] SEVENSEG_CT_UNKNOWN in
    if nonzero (store_private_ptr drvthis) then (-1, None, [])
    else
      let '(p, log1) := init_size drvthis p in
      let '(rc, p, log2) := init_rest drvthis p in
      (rc, Some p, log1 ++ log2).

End Init.

End Sevenseg.

(** * Reading the behaviour of the i2c connection type *)

Module I2cSpec.

Import I2c.
Local Open Scope io_scope.

(** The bytes written to the bus, in order. *)
Definition bus_writes (tr : list Event) : list Z :=
  flat_map (fun e => match e with BusWrite v => [v] | _ => [] end) tr.

(** The levels of the reports, in order. *)
Definition report_levels (tr : list Event) : list ReportLevel :=
  flat_map (fun e => match e with Report lvl _ => [lvl] | _ => [] end) tr.

Definition is_signal (e : Event) : bool :=
  match e with
  | Report _ _ => false
  | _ => true
  end.

(** The electrical side of a trace: bus writes and pauses, without the
    log. *)
Definition signals (tr : list Event) : list Event := List.filter is_signal tr.

(** Outcome of the next bus write in a world. *)
Definition next_ack (w : World) : bool :=
  match bus_acks w with
  | [] => true
  | a :: _ => a
  end.

(** Outcomes of the next [n] bus writes, [acks] being the outcomes
    that are fixed in advance. *)
Fixpoint next_acks (n : nat) (acks : list bool) : list bool :=
  match n with
  | O => []
  | S n' =>
      match acks with
      | [] => true :: next_acks n' []
      | a :: acks' => a :: next_acks n' acks'
      end
  end.

(** Is [line] high in port byte [v]? *)
Definition line_high (v line : Z) : bool := nonzero (Z.land v line).

(** The nibble a HD44780 reads from the data lines D7..D4 of a port
    byte. *)
Definition data_nibble (p : PrivateData) (v : Z) : Z :=
  (if line_high v (i2c_line_D7 p) then 8 else 0) +
  (if line_high v (i2c_line_D6 p) then 4 else 0) +
  (if line_high v (i2c_line_D5 p) then 2 else 0) +
  (if line_high v (i2c_line_D4 p) then 1 else 0).

(** The port bits that carry nibble [n]: bit 3 on D7 down to bit 0 on D4. *)
Definition nibble_lines (p : PrivateData) (n : Z) : Z :=
  Z.lor (Z.lor (Z.lor (if Z.testbit n 3 then i2c_line_D7 p else 0)
                      (if Z.testbit n 2 then i2c_line_D6 p else 0))
               (if Z.testbit n 1 then i2c_line_D5 p else 0))
        (if Z.testbit n 0 then i2c_line_D4 p else 0).

(** Time spent pausing before the next bus write. *)
Fixpoint wait_after (tr : list Event) : Z :=
  match tr with
  | Pause u :: tr' => u + wait_after tr'
  | Report _ _ :: tr' => wait_after tr'
  | BusWrite _ :: _ => 0
  | [] => 0
  end.

(** The enable pulses of a trace: for each, the port byte that was on
    the bus while EN was high, and the pause that follows the falling
    edge.  [high] is the byte of the pulse under way, if any. *)
Fixpoint pulses (EN : Z) (high : option Z) (tr : list Event) : list (Z * Z) :=
  match tr with
  | [] => []
  | BusWrite v :: tr' =>
      if line_high v EN then pulses EN (Some v) tr'
      else match high with
           | Some d => (d, wait_after tr') :: pulses EN None tr'
           | None => pulses EN None tr'
           end
  | _ :: tr' => pulses EN high tr'
  end.

(** A pin map is well formed when RS, EN and D4..D7 are non-zero port
    bytes, BL is a port byte, and no two lines share a bit. *)
Definition is_line (x : Z) : bool := (0 <? x) && (x <? 256).

Fixpoint pairwise_disjoint (l : list Z) : bool :=
  match l with
  | [] => true
  | a :: l' => forallb (fun b => Z.land a b =? 0) l' && pairwise_disjoint l'
  end.

Definition wf_lines (p : PrivateData) : bool :=
  forallb is_line [i2c_line_RS p; i2c_line_EN p; i2c_line_D4 p;
                   i2c_line_D5 p; i2c_line_D6 p; i2c_line_D7 p]
  && (0 <=? i2c_line_BL p) && (i2c_line_BL p <? 256)
  && pairwise_disjoint [i2c_line_RS p; i2c_line_EN p; i2c_line_BL p; i2c_line_D4 p;
                        i2c_line_D5 p; i2c_line_D6 p; i2c_line_D7 p].

(** The backlight bit of a session is either clear or the BL line. *)
Definition wf_session (p : PrivateData) : Prop :=
  wf_lines p = true /\ (backlight_bit p = 0 \/ backlight_bit p = i2c_line_BL p).

(** The truth table of the backlight controller as the specification
    prints it: is the bit set? *)
Definition backlight_table_spec (hasPin inverted requested : bool) : bool :=
  match hasPin, inverted, requested with
  | false, _, _ => false
  | true, false, true => true
  | true, false, false => false
  | true, true, true => false
  | true, true, false => true
  end.

(** Rate limiting as the specification words it: a failure is reported
    at debug level when the write before it failed too, at error level
    otherwise.  [prev_failed] tells whether the previous write failed. *)
Fixpoint rate_limited_levels_spec (prev_failed : bool) (acks : list bool)
  : list ReportLevel :=
  match acks with
  | [] => []
  | true :: acks' => rate_limited_levels_spec false acks'
  | false :: acks' =>
      (if prev_failed then RPT_DEBUG else RPT_ERR) :: rate_limited_levels_spec true acks'
  end.

(** The latch of the code: error level for the first failure, debug
    level for every failure after it. *)
Fixpoint latched_levels (quiet : bool) (acks : list bool) : list ReportLevel :=
  match acks with
  | [] => []
  | true :: acks' => latched_levels quiet acks'
  | false :: acks' => (if quiet then RPT_DEBUG else RPT_ERR) :: latched_levels true acks'
  end.

(** A write primitive that surfaces failures lets its caller tell a
    failed write from a good one by the value it returns. *)
Definition surfaces_write_errors : Prop :=
  exists failed : unit -> bool,
    forall p val w, failed (result (i2c_out p val) w) = negb (next_ack w).

(** A run of calls of [i2c_out], one for each value. *)
Fixpoint i2c_out_all (p : PrivateData) (vals : list Z) : M unit :=
  match vals with
  | [] => ret tt
  | v :: vals' => i2c_out p v ;; i2c_out_all p vals'
  end.

(** An example session: the wiring of a PCF8574 backpack (data lines on
    the low port bits, RS 0x10, EN 0x40, backlight 0x80), fast bus,
    backlight pin present and not inverted. *)
Definition example_session : PrivateData :=
  mkPrivateData 0x27 (Some 3) 0 true 0 0x10 0x40 0x80 0x01 0x02 0x04 0x08 0.

(** A world at start-up: every write is acknowledged, the latch is
    open, nothing has happened yet. *)
Definition quiet_world : World := mkWorld [] false [].

(** [emits m sig]: whatever the world, running [m] appends events to
    the trace whose electrical side is [sig]. *)
Definition emits {A} (m : M A) (sig : list Event) : Prop :=
  forall w, exists evs, trace (exec m w) = trace w ++ evs /\ signals evs = sig.

(** The electrical side of the power-up sequence. *)
Definition powerup_signals (p : PrivateData) : list Event :=
  let EN := i2c_line_EN p in
  let D4 := i2c_line_D4 p in
  let D5 := i2c_line_D5 p in
  let slow := if nonzero (delayBus p) then [Pause 1] else [] in
  [BusWrite (u8 (Z.lor D4 D5))] ++ slow ++
  [BusWrite (u8 (Z.lor (Z.lor EN D4) D5))] ++ slow ++
  [BusWrite (u8 (Z.lor D4 D5))] ++ [Pause 15000] ++
  [BusWrite (u8 (Z.lor (Z.lor EN D4) D5))] ++ slow ++
  [BusWrite (u8 (Z.lor D4 D5))] ++ [Pause 5000] ++
  [BusWrite (u8 (Z.lor (Z.lor EN D4) D5))] ++ slow ++
  [BusWrite (u8 (Z.lor D4 D5))] ++ [Pause 100] ++
  [BusWrite (u8 (Z.lor (Z.lor EN D4) D5))] ++ slow ++
  [BusWrite (u8 (Z.lor D4 D5))] ++ [Pause 100] ++
  [BusWrite (u8 D5)] ++ slow ++
  [BusWrite (u8 (Z.lor EN D5))] ++ slow ++
  [BusWrite (u8 D5)] ++ [Pause 100].

(** Total time spent in [uPause], in microseconds. *)
Fixpoint pause_total (tr : list Event) : Z :=
  match tr with
  | [] => 0
  | Pause u :: tr' => u + pause_total tr'
  | _ :: tr' => pause_total tr'
  end.

(** Number of reports at error level. *)
Definition count_errors (lvls : list ReportLevel) : nat :=
  length (List.filter (ReportLevel_eqb RPT_ERR) lvls).

(** [logs m n]: running [m] makes [n] bus writes, whose outcomes it
    takes in order; its reports are those of the latch and the latch is
    set afterwards when it was set before or one of the writes failed. *)
Definition logs {A} (m : M A) (n : nat) : Prop :=
  forall w,
    report_levels (trace (exec m w)) =
      report_levels (trace w) ++
      latched_levels (no_more_errormsgs w) (next_acks n (bus_acks w))
    /\ no_more_errormsgs (exec m w) =
       no_more_errormsgs w || existsb negb (next_acks n (bus_acks w))
    /\ bus_acks (exec m w) = drop n (bus_acks w).

(** [pauses_for m t]: running [m] pauses for [t] microseconds in all. *)
Definition pauses_for {A} (m : M A) (t : Z) : Prop :=
  forall w, pause_total (trace (exec m w)) = pause_total (trace w) + t.

End I2cSpec.

(** * Reading the behaviour of the text driver *)

Module SevensegSpec.

Import Sevenseg.

(** [flipped] has A and D, B and E, C and F of [pattern] exchanged and
    the same G. *)
Definition swaps_segments (pattern flipped : Z) : bool :=
  Bool.eqb (Z.testbit flipped BIT_SEG7_A) (Z.testbit pattern BIT_SEG7_D) &&
  Bool.eqb (Z.testbit flipped BIT_SEG7_D) (Z.testbit pattern BIT_SEG7_A) &&
  Bool.eqb (Z.testbit flipped BIT_SEG7_B) (Z.testbit pattern BIT_SEG7_E) &&
  Bool.eqb (Z.testbit flipped BIT_SEG7_E) (Z.testbit pattern BIT_SEG7_B) &&
  Bool.eqb (Z.testbit flipped BIT_SEG7_C) (Z.testbit pattern BIT_SEG7_F) &&
  Bool.eqb (Z.testbit flipped BIT_SEG7_F) (Z.testbit pattern BIT_SEG7_C) &&
  Bool.eqb (Z.testbit flipped BIT_SEG7_G) (Z.testbit pattern BIT_SEG7_G).

(** The characters of a C string: what comes before the first NUL. *)
Fixpoint c_chars (s : list Z) : list Z :=
  match s with
  | [] => []
  | c :: s' => if c =? NUL then [] else c :: c_chars s'
  end.

(** The cell at column [col], row [row], both counted from 1. *)
Definition cell (p : PrivateData) (col row : Z) : option Z :=
  framebuf p !! Z.to_nat ((row - 1) * width p + (col - 1)).

(** The frame buffer holds [width * height] cells. *)
Definition wf_framebuf (p : PrivateData) : Prop :=
  0 < width p /\ 0 < height p /\
  length (framebuf p) = Z.to_nat (width p * height p).

(** An example: a blank grid of four columns and two rows. *)
Definition example_grid : PrivateData :=
  mkPrivateData 4 2 (memset SPACE 8) SEVENSEG_CT_I2C.

(** An example conversion map: the ten digits, every other character
    blank, and [-EINVAL] outside the table. *)
Definition example_map : list Z :=
  repeat 0 48 ++ [0x3f; 0x06; 0x5b; 0x4f; 0x66; 0x6d; 0x7d; 0x07; 0x7f; 0x6f]
  ++ repeat 0 70.

Definition example_map_to_seg7 (m : list Z) (c : Z) : Z :=
  if (0 <=? c) && (c <? Z.of_nat (length m)) then nth (Z.to_nat c) m 0 else -22.

(** Number of lit segments of a pattern: the bits 0 to 6 that are set. *)
Definition segments_lit (v : Z) : Z :=
  fold_right (fun i acc => (if Z.testbit v i then 1 else 0) + acc) 0 [0; 1; 2; 3; 4; 5; 6].

(** A driver with another [Size] setting. *)
Definition set_config_Size (d : Driver) (size : option string) : Driver :=
  mkDriver (name d) (calloc_ok d) (store_private_ptr d) (request_display_width d)
    (request_display_height d) size (config_ConnectionType d) (malloc_ok d).

End SevensegSpec.

(** * Checking a property of bytes by running it on all of them *)

Lemma forall_below (P : Z -> bool) (n : nat) :
  forallb P (map Z.of_nat (seq 0 n)) = true ->
  forall z, 0 <= z < Z.of_nat n -> P z = true.
Proof.
  intros H z Hz. rewrite forallb_forall in H. apply H.
  apply in_map_iff. exists (Z.to_nat z). split; [lia | ].
  apply in_seq. lia.
Qed.

(** * Properties of the i2c connection type *)

Module I2cFacts.

Import I2c I2cSpec.
Local Open Scope io_scope.

(** ** The state monad *)

Lemma exec_bind {A B} (m : M A) (k : A -> M B) w :
  exec (bind m k) w = exec (k (result m w)) (exec m w).
Proof. unfold exec, result, bind. destruct (m w); reflexivity. Qed.

Lemma result_bind {A B} (m : M A) (k : A -> M B) w :
  result (bind m k) w = result (k (result m w)) (exec m w).
Proof. unfold exec, result, bind. destruct (m w); reflexivity. Qed.

Lemma exec_ret {A} (a : A) w : exec (ret a) w = w.
Proof. reflexivity. Qed.

(** ** [i2c_out] step by step *)

Lemma i2c_out_trace p v w :
  trace (exec (i2c_out p v) w) =
  trace w ++ BusWrite (u8 v) ::
    (if next_ack w then []
     else [Report (if no_more_errormsgs w then RPT_DEBUG else RPT_ERR)
                  "sevenseg: I2C: i2c write data %u failed: %s"]).
Proof.
  unfold i2c_out, exec, bind, i2c_write_no_ack, next_ack.
  destruct (bus_acks w) as [|[] rest]; cbn; try reflexivity.
  rewrite <- app_assoc. reflexivity.
Qed.

Lemma i2c_out_latch p v w :
  no_more_errormsgs (exec (i2c_out p v) w) = no_more_errormsgs w || negb (next_ack w).
Proof.
  unfold i2c_out, exec, bind, i2c_write_no_ack, next_ack.
  destruct (bus_acks w) as [|[] rest]; cbn;
    destruct (no_more_errormsgs w); reflexivity.
Qed.

Lemma i2c_out_acks p v w :
  bus_acks (exec (i2c_out p v) w) = tail (bus_acks w).
Proof.
  unfold i2c_out, exec, bind, i2c_write_no_ack.
  destruct (bus_acks w) as [|[] rest]; reflexivity.
Qed.

Lemma bus_writes_app a b : bus_writes (a ++ b) = bus_writes a ++ bus_writes b.
Proof. apply flat_map_app. Qed.

Lemma report_levels_app a b : report_levels (a ++ b) = report_levels a ++ report_levels b.
Proof. apply flat_map_app. Qed.

Lemma signals_app a b : signals (a ++ b) = signals a ++ signals b.
Proof. apply List.filter_app. Qed.

Lemma result_ret {A} (a : A) w : result (ret a) w = a.
Proof. reflexivity. Qed.

Lemma i2c_out_bus_writes p v w :
  bus_writes (trace (exec (i2c_out p v) w)) = bus_writes (trace w) ++ [u8 v].
Proof.
  rewrite i2c_out_trace, bus_writes_app.
  destruct (next_ack w); reflexivity.
Qed.

Lemma i2c_out_report_levels p v w :
  report_levels (trace (exec (i2c_out p v) w)) =
  report_levels (trace w) ++
    (if next_ack w then []
     else [if no_more_errormsgs w then RPT_DEBUG else RPT_ERR]).
Proof.
  rewrite i2c_out_trace, report_levels_app.
  destruct (next_ack w); reflexivity.
Qed.

Lemma next_acks_step p v n w :
  next_acks (S n) (bus_acks w) =
  next_ack w :: next_acks n (bus_acks (exec (i2c_out p v) w)).
Proof.
  rewrite i2c_out_acks. unfold next_ack.
  destruct (bus_acks w); reflexivity.
Qed.

Lemma i2c_out_all_report_levels p vals : forall w,
  report_levels (trace (exec (i2c_out_all p vals) w)) =
  report_levels (trace w) ++
    latched_levels (no_more_errormsgs w) (next_acks (length vals) (bus_acks w)).
Proof.
  induction vals as [|v vals IH]; intros w.
  - cbn. rewrite app_nil_r. reflexivity.
  - cbn [i2c_out_all length]. rewrite exec_bind, IH.
    rewrite (next_acks_step p v), i2c_out_report_levels, i2c_out_latch.
    rewrite <- app_assoc. f_equal.
    destruct (next_ack w); cbn [latched_levels negb app].
    + rewrite orb_false_r. reflexivity.
    + rewrite orb_true_r. reflexivity.
Qed.

(** ** Bus write failures *)

(** C5, as amended: in a run of bus writes that starts with the latch
    open, the first failed write is reported at error level and every
    failed write after it at debug level, whether or not writes succeed
    in between. *)
Theorem i2c_out_failures_latched p vals w :
  no_more_errormsgs w = false ->
  report_levels (trace (exec (i2c_out_all p vals) w)) =
  report_levels (trace w) ++ latched_levels false (next_acks (length vals) (bus_acks w)).
Proof.
  intros Hq. rewrite i2c_out_all_report_levels, Hq. reflexivity.
Qed.

(** Four writes of which the first, third and fourth fail: one error
    report, then debug reports. *)
Lemma i2c_out_failures_latched_witness :
  report_levels (trace (exec (i2c_out_all example_session [1; 2; 3; 4])
                             (mkWorld [false; true; false; false] false []))) =
  [RPT_ERR; RPT_DEBUG; RPT_DEBUG].
Proof.
  apply (i2c_out_failures_latched example_session [1; 2; 3; 4]
           (mkWorld [false; true; false; false] false [])).
  reflexivity.
Defined.

(** C5, as stated, fails: a failure, a good write and a second failure
    give an error report and a debug report, where the specification
    asks for two error reports. *)
Lemma i2c_out_latch_never_reopens :
  report_levels (trace (exec (i2c_out_all example_session [1; 2; 3])
                             (mkWorld [false; true; false] false []))) =
    [RPT_ERR; RPT_DEBUG]
  /\ rate_limited_levels_spec false (next_acks 3 [false; true; false]) =
     [RPT_ERR; RPT_ERR]
  /\ report_levels (trace (exec (i2c_out_all example_session [1; 2; 3])
                                (mkWorld [false; true; false] false []))) <>
     rate_limited_levels_spec false (next_acks 3 [false; true; false]).
Proof.
  split; [reflexivity | split; [reflexivity | ]].
  vm_compute. discriminate.
Qed.

(** C6, as amended: [i2c_out] attempts the write once, whatever its
    outcome, reports a failed write once and a good one not at all, and
    hands the same (empty) result to its caller in both cases. *)
Theorem i2c_out_single_attempt p val w :
  bus_writes (trace (exec (i2c_out p val) w)) = bus_writes (trace w) ++ [u8 val]
  /\ bus_acks (exec (i2c_out p val) w) = tail (bus_acks w)
  /\ length (report_levels (trace (exec (i2c_out p val) w))) =
     (length (report_levels (trace w)) + (if next_ack w then 0 else 1))%nat
  /\ (forall w2, result (i2c_out p val) w = result (i2c_out p val) w2).
Proof.
  split; [apply i2c_out_bus_writes | split; [apply i2c_out_acks | split]].
  - rewrite i2c_out_report_levels, length_app.
    destruct (next_ack w); reflexivity.
  - intros w2. destruct (result (i2c_out p val) w), (result (i2c_out p val) w2).
    reflexivity.
Qed.

(** C6, as stated, fails: no reading of the value that [i2c_out] returns
    tells a failed write from a good one. *)
Lemma i2c_out_returns_no_error : ~ surfaces_write_errors.
Proof.
  intros [failed H].
  pose proof (H example_session 0 (mkWorld [false] false [])) as Hbad.
  pose proof (H example_session 0 (mkWorld [true] false [])) as Hgood.
  cbn in Hbad, Hgood. congruence.
Qed.

(** ** Backlight *)

(** C1, as amended: without a backlight pin the bit is never set; with
    a pin and normal polarity it is set exactly when the backlight is
    requested off; with a pin and inverted polarity it is set exactly
    when the backlight is requested on.  The bit is kept in the private
    data and written to the bus at once. *)
Theorem backlight_bit_table p state w :
  0 <= state < 256 ->
  let requested := nonzero state in
  let p' := result (i2c_sevenseg_backlight p state) w in
  let w' := exec (i2c_sevenseg_backlight p state) w in
  (have_backlight_pin p = false -> backlight_bit p' = 0)
  /\ (have_backlight_pin p = true -> i2c_backlight_invert p = 0 ->
      backlight_bit p' = if requested then 0 else i2c_line_BL p)
  /\ (have_backlight_pin p = true -> i2c_backlight_invert p <> 0 ->
      backlight_bit p' = if requested then i2c_line_BL p else 0)
  /\ bus_writes (trace w') = bus_writes (trace w) ++ [u8 (backlight_bit p')]
  /\ p' = set_backlight_bit p (backlight_bit p').
Proof.
  intros Hst requested p' w'.
  assert (Hu : u8 state = state) by (unfold u8; apply Z.mod_small; lia).
  subst p' w'. unfold i2c_sevenseg_backlight.
  rewrite result_bind, result_ret, exec_bind, exec_ret, i2c_out_bus_writes, Hu.
  fold requested.
  repeat split.
  - intros Hpin. rewrite Hpin.
    destruct (i2c_backlight_invert p =? 0); reflexivity.
  - intros Hpin Hinv. rewrite Hpin, Hinv. cbn. destruct requested; reflexivity.
  - intros Hpin Hinv. rewrite Hpin.
    apply Z.eqb_neq in Hinv. rewrite Hinv. cbn. destruct requested; reflexivity.
  - destruct (i2c_backlight_invert p =? 0); reflexivity.
Qed.

(** Backlight requested off on the example session: the BL line is
    raised and written. *)
Lemma backlight_bit_table_witness :
  backlight_bit (result (i2c_sevenseg_backlight example_session 0) quiet_world) = 0x80
  /\ bus_writes (trace (exec (i2c_sevenseg_backlight example_session 0) quiet_world)) = [0x80].
Proof.
  destruct (backlight_bit_table example_session 0 quiet_world ltac:(lia))
    as (_ & Hset & _ & Hbus & _).
  split.
  - exact (Hset eq_refl eq_refl).
  - exact Hbus.
Defined.

(** C1, as stated, fails: with a backlight pin, normal polarity and the
    backlight requested on, the table of the specification has the bit
    set and the code clears it. *)
Lemma backlight_polarity_differs :
  backlight_table_spec (have_backlight_pin example_session)
                       (nonzero (i2c_backlight_invert example_session))
                       (nonzero 1) = true
  /\ backlight_bit (result (i2c_sevenseg_backlight example_session 1) quiet_world) = 0
  /\ nonzero (backlight_bit (result (i2c_sevenseg_backlight example_session 1)
                                    quiet_world)) <>
     backlight_table_spec (have_backlight_pin example_session)
                          (nonzero (i2c_backlight_invert example_session))
                          (nonzero 1).
Proof.
  split; [reflexivity | split; [reflexivity | ]].
  vm_compute. discriminate.
Qed.

(** ** Port bytes *)

Lemma u8_small x : 0 <= x < 256 -> u8 x = x.
Proof. intros H. unfold u8. apply Z.mod_small. exact H. Qed.

Lemma u8_lor a b : u8 (Z.lor a b) = Z.lor (u8 a) (u8 b).
Proof.
  unfold u8. change 256 with (2 ^ 8).
  rewrite <- !Z.land_ones by lia. apply Z.land_lor_distr_l.
Qed.

Lemma nonzero_pos x : 0 < x -> nonzero x = true.
Proof. intros H. unfold nonzero. destruct (Z.eqb_spec x 0); [lia | reflexivity]. Qed.

(** The masks that [i2c_sevenseg_senddata] tests are the bits of the two
    nibbles. *)
Lemma byte_masks ch :
  0 <= ch < 256 ->
  nonzero (Z.land ch 0x80) = Z.testbit (ch / 16) 3 /\
  nonzero (Z.land ch 0x40) = Z.testbit (ch / 16) 2 /\
  nonzero (Z.land ch 0x20) = Z.testbit (ch / 16) 1 /\
  nonzero (Z.land ch 0x10) = Z.testbit (ch / 16) 0 /\
  nonzero (Z.land ch 0x08) = Z.testbit (ch mod 16) 3 /\
  nonzero (Z.land ch 0x04) = Z.testbit (ch mod 16) 2 /\
  nonzero (Z.land ch 0x02) = Z.testbit (ch mod 16) 1 /\
  nonzero (Z.land ch 0x01) = Z.testbit (ch mod 16) 0.
Proof.
  intros H.
  pose (P := fun ch =>
    Bool.eqb (nonzero (Z.land ch 0x80)) (Z.testbit (ch / 16) 3) &&
    Bool.eqb (nonzero (Z.land ch 0x40)) (Z.testbit (ch / 16) 2) &&
    Bool.eqb (nonzero (Z.land ch 0x20)) (Z.testbit (ch / 16) 1) &&
    Bool.eqb (nonzero (Z.land ch 0x10)) (Z.testbit (ch / 16) 0) &&
    Bool.eqb (nonzero (Z.land ch 0x08)) (Z.testbit (ch mod 16) 3) &&
    Bool.eqb (nonzero (Z.land ch 0x04)) (Z.testbit (ch mod 16) 2) &&
    Bool.eqb (nonzero (Z.land ch 0x02)) (Z.testbit (ch mod 16) 1) &&
    Bool.eqb (nonzero (Z.land ch 0x01)) (Z.testbit (ch mod 16) 0)).
  assert (HP : P ch = true).
  { apply (forall_below P 256); [vm_compute; reflexivity | exact H]. }
  unfold P in HP.
  repeat (apply andb_prop in HP; destruct HP as [HP ?]).
  repeat split; apply Bool.eqb_prop; assumption.
Qed.

(** A nibble is the sum of its four bits. *)
Lemma nibble_bits n :
  0 <= n < 16 ->
  (if Z.testbit n 3 then 8 else 0) + (if Z.testbit n 2 then 4 else 0) +
  (if Z.testbit n 1 then 2 else 0) + (if Z.testbit n 0 then 1 else 0) = n.
Proof.
  intros H.
  pose (P := fun n =>
    (if Z.testbit n 3 then 8 else 0) + (if Z.testbit n 2 then 4 else 0) +
    (if Z.testbit n 1 then 2 else 0) + (if Z.testbit n 0 then 1 else 0) =? n).
  assert (HP : P n = true).
  { apply (forall_below P 16); [vm_compute; reflexivity | exact H]. }
  apply Z.eqb_eq. exact HP.
Qed.

(** The facts a well-formed pin map gives: bounds of every line and
    the 21 disjointness equations. *)
Ltac wf_lines_facts H :=
  unfold wf_lines, is_line in H;
  cbn [forallb pairwise_disjoint] in H;
  repeat match goal with
         | H' : _ && _ = true |- _ =>
             let H1 := fresh "Hl" in
             apply andb_prop in H'; destruct H' as [H' H1]
         end;
  repeat match goal with
         | H' : (_ <? _) = true |- _ => apply Z.ltb_lt in H'
         | H' : (_ <=? _) = true |- _ => apply Z.leb_le in H'
         | H' : (_ =? _) = true |- _ => apply Z.eqb_eq in H'
         | H' : true = true |- _ => clear H'
         end.

(** Normal form of a port byte tested against a line: distribute the
    test over the lines that were or-ed together. *)
Ltac lines_norm :=
  repeat first
    [ rewrite u8_lor
    | match goal with |- context [u8 ?x] => rewrite (u8_small x) by lia end
    | rewrite Z.land_lor_distr_l
    | rewrite Z.land_diag
    | rewrite Z.land_0_l
    | rewrite Z.lor_0_l
    | rewrite Z.lor_0_r
    | match goal with
      | H : Z.land ?a ?b = 0 |- context [Z.land ?a ?b] => rewrite H
      | H : Z.land ?a ?b = 0 |- context [Z.land ?b ?a] => rewrite (Z.land_comm b a), H
      end ].

Ltac lines_test :=
  unfold line_high; lines_norm;
  repeat match goal with
         | |- context [nonzero 0] => change (nonzero 0) with false
         | |- context [nonzero ?x] => rewrite (nonzero_pos x) by lia
         end.

Section Nibbles.

Variable p : PrivateData.
Hypothesis Hwf : wf_session p.

(** The port bits that the code collects for a nibble, bit by bit. *)
Lemma nibble_code b3 b2 b1 b0 :
  (let h := 0 in
   let h := if b3 : bool then u8 (Z.lor h (i2c_line_D7 p)) else h in
   let h := if b2 : bool then u8 (Z.lor h (i2c_line_D6 p)) else h in
   let h := if b1 : bool then u8 (Z.lor h (i2c_line_D5 p)) else h in
   let h := if b0 : bool then u8 (Z.lor h (i2c_line_D4 p)) else h in
   h) =
  Z.lor (Z.lor (Z.lor (if b3 then i2c_line_D7 p else 0)
                      (if b2 then i2c_line_D6 p else 0))
               (if b1 then i2c_line_D5 p else 0))
        (if b0 then i2c_line_D4 p else 0).
Proof.
  destruct Hwf as [Hl _]. wf_lines_facts Hl.
  cbv zeta. destruct b3, b2, b1, b0; lines_norm; reflexivity.
Qed.

Lemma port_control_code (rs : bool) :
  u8 (Z.lor (if rs then 0 else u8 (i2c_line_RS p)) (backlight_bit p)) =
  Z.lor (if rs then 0 else i2c_line_RS p) (backlight_bit p).
Proof.
  destruct Hwf as [Hl Hbl]. wf_lines_facts Hl.
  destruct rs, Hbl as [Hb | Hb]; rewrite Hb; lines_norm; reflexivity.
Qed.

(** What the display reads from a port byte made of control lines
    [c] (among EN, RS, BL) and the data lines of nibble [n]. *)
Lemma data_nibble_lines (en rs : bool) n :
  0 <= n < 16 ->
  data_nibble p
    (Z.lor (Z.lor (if en then i2c_line_EN p else 0)
                  (Z.lor (if rs then 0 else i2c_line_RS p) (backlight_bit p)))
           (nibble_lines p n)) = n.
Proof.
  intros Hn. rewrite <- (nibble_bits n Hn) at 2.
  destruct Hwf as [Hl Hbl]. wf_lines_facts Hl.
  unfold data_nibble, nibble_lines.
  destruct en, rs, Hbl as [Hb | Hb]; rewrite Hb;
    destruct (Z.testbit n 3), (Z.testbit n 2), (Z.testbit n 1), (Z.testbit n 0);
    lines_test; reflexivity.
Qed.

(** Port bytes made of lines are not changed by the conversion to
    [unsigned char]. *)
Lemma u8_port_byte (rs : bool) n :
  let pc := Z.lor (if rs then 0 else i2c_line_RS p) (backlight_bit p) in
  u8 (Z.lor pc (nibble_lines p n)) = Z.lor pc (nibble_lines p n)
  /\ u8 (Z.lor (Z.lor (i2c_line_EN p) pc) (nibble_lines p n)) =
     Z.lor (Z.lor (i2c_line_EN p) pc) (nibble_lines p n).
Proof.
  destruct Hwf as [Hl Hbl]. wf_lines_facts Hl.
  unfold nibble_lines. cbv zeta.
  destruct rs, Hbl as [Hb | Hb]; rewrite Hb;
    destruct (Z.testbit n 3), (Z.testbit n 2), (Z.testbit n 1), (Z.testbit n 0);
    split; lines_norm; reflexivity.
Qed.

Lemma control_lines (en rs : bool) n :
  let v := Z.lor (Z.lor (if en then i2c_line_EN p else 0)
                        (Z.lor (if rs then 0 else i2c_line_RS p) (backlight_bit p)))
                 (nibble_lines p n) in
  line_high v (i2c_line_EN p) = en
  /\ line_high v (i2c_line_RS p) = negb rs
  /\ Z.land v (i2c_line_BL p) = backlight_bit p.
Proof.
  destruct Hwf as [Hl Hbl]. wf_lines_facts Hl.
  unfold nibble_lines. cbv zeta.
  destruct en, rs, Hbl as [Hb | Hb]; rewrite Hb;
    destruct (Z.testbit n 3), (Z.testbit n 2), (Z.testbit n 1), (Z.testbit n 0);
    (split; [ | split]); lines_test; reflexivity.
Qed.

End Nibbles.

(** ** Bus writes of a program *)

Lemma uPause_bus_writes p u w :
  bus_writes (trace (exec (uPause p u) w)) = bus_writes (trace w).
Proof.
  unfold uPause, emit, exec. cbn. rewrite bus_writes_app. cbn.
  apply app_nil_r.
Qed.

Lemma when_uPause_bus_writes c p u w :
  bus_writes (trace (exec (when c (uPause p u)) w)) = bus_writes (trace w).
Proof. destruct c; [apply uPause_bus_writes | reflexivity]. Qed.

(** ** The line driver *)

(** C2: for every byte and every frame kind [i2c_sevenseg_senddata]
    makes exactly six bus writes: the high nibble on D7..D4 with EN low,
    high, low, then the low nibble on the same lines with EN low, high,
    low.  Every write carries RS (set unless the frame is an instruction)
    and the backlight bit of the session, the data lines do not change
    during a pulse, and the two nibbles read back from the bus give the
    byte that was sent. *)
Theorem senddata_six_writes RS_INSTR p displayID flags ch w :
  wf_session p ->
  0 <= flags < 256 ->
  0 <= ch < 256 ->
  let EN := i2c_line_EN p in
  let pc := Z.lor (if flags =? RS_INSTR then 0 else i2c_line_RS p) (backlight_bit p) in
  let h := nibble_lines p (ch / 16) in
  let l := nibble_lines p (ch mod 16) in
  let written :=
    [Z.lor pc h; Z.lor (Z.lor EN pc) h; Z.lor pc h;
     Z.lor pc l; Z.lor (Z.lor EN pc) l; Z.lor pc l] in
  bus_writes (trace (exec (i2c_sevenseg_senddata RS_INSTR p displayID flags ch) w)) =
    bus_writes (trace w) ++ written
  /\ length written = 6%nat
  /\ map (fun v => line_high v EN) written = [false; true; false; false; true; false]
  /\ map (data_nibble p) written =
       [ch / 16; ch / 16; ch / 16; ch mod 16; ch mod 16; ch mod 16]
  /\ 16 * data_nibble p (Z.lor pc h) + data_nibble p (Z.lor pc l) = ch
  /\ Forall (fun v => line_high v (i2c_line_RS p) = negb (flags =? RS_INSTR)
                      /\ Z.land v (i2c_line_BL p) = backlight_bit p) written.
Proof.
  intros Hwf Hflags Hch EN pc h l written.
  assert (Hhi : 0 <= ch / 16 < 16)
    by (split; [apply Z.div_pos; lia | apply Z.div_lt_upper_bound; lia]).
  assert (Hlo : 0 <= ch mod 16 < 16) by (apply Z.mod_pos_bound; lia).
  pose proof (data_nibble_lines p Hwf false (flags =? RS_INSTR) _ Hhi) as Dh0.
  pose proof (data_nibble_lines p Hwf true (flags =? RS_INSTR) _ Hhi) as Dh1.
  pose proof (data_nibble_lines p Hwf false (flags =? RS_INSTR) _ Hlo) as Dl0.
  pose proof (data_nibble_lines p Hwf true (flags =? RS_INSTR) _ Hlo) as Dl1.
  pose proof (control_lines p Hwf false (flags =? RS_INSTR) (ch / 16)) as (Eh0 & Rh0 & Bh0).
  pose proof (control_lines p Hwf true (flags =? RS_INSTR) (ch / 16)) as (Eh1 & Rh1 & Bh1).
  pose proof (control_lines p Hwf false (flags =? RS_INSTR) (ch mod 16)) as (El0 & Rl0 & Bl0).
  pose proof (control_lines p Hwf true (flags =? RS_INSTR) (ch mod 16)) as (El1 & Rl1 & Bl1).
  cbv beta iota in Dh0, Dh1, Dl0, Dl1, Eh0, Rh0, Bh0, Eh1, Rh1, Bh1,
                   El0, Rl0, Bl0, El1, Rl1, Bl1.
  rewrite Z.lor_0_l in Dh0, Dl0, Eh0, Rh0, Bh0, El0, Rl0, Bl0.
  fold pc in Dh0, Dh1, Dl0, Dl1, Eh0, Rh0, Bh0, Eh1, Rh1, Bh1, El0, Rl0, Bl0, El1, Rl1, Bl1.
  fold h in Dh0, Dh1, Eh0, Rh0, Bh0, Eh1, Rh1, Bh1.
  fold l in Dl0, Dl1, El0, Rl0, Bl0, El1, Rl1, Bl1.
  fold EN in Dh1, Dl1, Eh1, Rh1, Bh1, El1, Rl1, Bl1, Eh0, El0.
  split; [ | split; [reflexivity | split; [ | split; [ | split]]]].
  - (* the six writes *)
    unfold i2c_sevenseg_senddata. cbv zeta.
    rewrite !exec_bind.
    repeat first [rewrite i2c_out_bus_writes | rewrite when_uPause_bus_writes].
    rewrite <- !app_assoc. cbn [app]. apply f_equal.
    rewrite (u8_small flags Hflags), (u8_small ch Hch).
    destruct (byte_masks ch Hch) as (-> & -> & -> & -> & -> & -> & -> & ->).
    pose proof (nibble_code p Hwf (Z.testbit (ch / 16) 3) (Z.testbit (ch / 16) 2)
                  (Z.testbit (ch / 16) 1) (Z.testbit (ch / 16) 0)) as Hh.
    pose proof (nibble_code p Hwf (Z.testbit (ch mod 16) 3) (Z.testbit (ch mod 16) 2)
                  (Z.testbit (ch mod 16) 1) (Z.testbit (ch mod 16) 0)) as Hl.
    cbv zeta in Hh, Hl. rewrite Hh, Hl.
    fold (nibble_lines p (ch / 16)). fold (nibble_lines p (ch mod 16)).
    rewrite (port_control_code p Hwf (flags =? RS_INSTR)).
    destruct (u8_port_byte p Hwf (flags =? RS_INSTR) (ch / 16)) as [-> ->].
    destruct (u8_port_byte p Hwf (flags =? RS_INSTR) (ch mod 16)) as [-> ->].
    reflexivity.
  - cbn [map written]. rewrite Eh0, Eh1, El0, El1. reflexivity.
  - cbn [map written]. rewrite Dh0, Dh1, Dl0, Dl1. reflexivity.
  - rewrite Dh0, Dl0. rewrite (Z.div_mod ch 16) at 3 by lia. reflexivity.
  - unfold written. repeat constructor; assumption.
Qed.

(** The data byte 0x41 on the example session. *)
Lemma senddata_six_writes_witness :
  bus_writes (trace (exec (i2c_sevenseg_senddata 1 example_session 0 0 0x41) quiet_world)) =
    [0x14; 0x54; 0x14; 0x11; 0x51; 0x11]
  /\ 16 * data_nibble example_session 0x14 + data_nibble example_session 0x11 = 0x41.
Proof.
  destruct (senddata_six_writes 1 example_session 0 0 0x41 quiet_world
              (conj eq_refl (or_introl eq_refl)) ltac:(lia) ltac:(lia))
    as (Hw & _ & _ & _ & Hr & _).
  split; [exact Hw | exact Hr].
Defined.

(** ** Signals of a program *)

Lemma emits_ret {A} (a : A) : emits (ret a) [].
Proof. intros w. exists []. rewrite exec_ret, app_nil_r. split; reflexivity. Qed.

Lemma emits_bind {A B} (m : M A) (k : A -> M B) s1 s2 :
  emits m s1 -> (forall a, emits (k a) s2) -> emits (bind m k) (s1 ++ s2).
Proof.
  intros Hm Hk w. rewrite exec_bind.
  destruct (Hm w) as (e1 & Ht1 & Hs1).
  destruct (Hk (result m w) (exec m w)) as (e2 & Ht2 & Hs2).
  exists (e1 ++ e2). rewrite Ht2, Ht1, <- app_assoc, signals_app, Hs1, Hs2.
  split; reflexivity.
Qed.

Lemma emits_i2c_out p v : emits (i2c_out p v) [BusWrite (u8 v)].
Proof.
  intros w. eexists. split; [apply i2c_out_trace | ].
  destruct (next_ack w); reflexivity.
Qed.

Lemma emits_uPause p u : emits (uPause p u) [Pause u].
Proof. intros w. exists [Pause u]. split; reflexivity. Qed.

Lemma emits_when_uPause c p u :
  emits (when c (uPause p u)) (if c then [Pause u] else []).
Proof. destruct c; [apply emits_uPause | apply emits_ret]. Qed.

Lemma powerup_emits p : emits (powerup p) (powerup_signals p).
Proof.
  unfold powerup, powerup_signals. cbv zeta.
  repeat (apply emits_bind;
          [ first [apply emits_i2c_out | apply emits_when_uPause | apply emits_uPause]
          | intros _ ]).
  apply emits_uPause.
Qed.

(** ** Enable pulses *)

Lemma wait_after_signals tr : wait_after (signals tr) = wait_after tr.
Proof.
  unfold signals.
  induction tr as [|[v | lvl fmt | u] tr IH]; cbn; try reflexivity.
  - exact IH.
  - rewrite IH. reflexivity.
Qed.

Lemma pulses_signals EN tr : forall high,
  pulses EN high (signals tr) = pulses EN high tr.
Proof.
  induction tr as [|[v | lvl fmt | u] tr IH]; intros high;
    try reflexivity; unfold signals in *; cbn.
  - rewrite !IH. fold (signals tr). rewrite wait_after_signals. reflexivity.
  - apply IH.
  - apply IH.
Qed.

Lemma pulses_rise EN high v tr :
  line_high v EN = true ->
  pulses EN high (BusWrite v :: tr) = pulses EN (Some v) tr.
Proof. intros H. cbn. rewrite H. reflexivity. Qed.

Lemma pulses_fall EN d v tr :
  line_high v EN = false ->
  pulses EN (Some d) (BusWrite v :: tr) = (d, wait_after tr) :: pulses EN None tr.
Proof. intros H. cbn. rewrite H. reflexivity. Qed.

Lemma pulses_idle EN v tr :
  line_high v EN = false ->
  pulses EN None (BusWrite v :: tr) = pulses EN None tr.
Proof. intros H. cbn. rewrite H. reflexivity. Qed.

Lemma pulses_pause EN high u tr :
  pulses EN high (Pause u :: tr) = pulses EN high tr.
Proof. reflexivity. Qed.

Lemma powerup_pulses p :
  wf_lines p = true ->
  let EN := i2c_line_EN p in
  let D4 := i2c_line_D4 p in
  let D5 := i2c_line_D5 p in
  pulses EN None (powerup_signals p) =
  [(Z.lor (Z.lor EN D4) D5, 15000); (Z.lor (Z.lor EN D4) D5, 5000);
   (Z.lor (Z.lor EN D4) D5, 100); (Z.lor (Z.lor EN D4) D5, 100);
   (Z.lor EN D5, 100)].
Proof.
  intros Hl EN D4 D5. wf_lines_facts Hl.
  assert (Ha : u8 (Z.lor D4 D5) = Z.lor D4 D5) by (subst D4 D5; lines_norm; reflexivity).
  assert (Hb : u8 (Z.lor (Z.lor EN D4) D5) = Z.lor (Z.lor EN D4) D5)
    by (subst EN D4 D5; lines_norm; reflexivity).
  assert (Hc : u8 D5 = D5) by (subst D5; lines_norm; reflexivity).
  assert (Hd : u8 (Z.lor EN D5) = Z.lor EN D5) by (subst EN D5; lines_norm; reflexivity).
  assert (La : line_high (Z.lor D4 D5) EN = false) by (subst EN D4 D5; lines_test; reflexivity).
  assert (Lb : line_high (Z.lor (Z.lor EN D4) D5) EN = true)
    by (subst EN D4 D5; lines_test; reflexivity).
  assert (Lc : line_high D5 EN = false) by (subst EN D5; lines_test; reflexivity).
  assert (Ld : line_high (Z.lor EN D5) EN = true) by (subst EN D5; lines_test; reflexivity).
  unfold powerup_signals. fold EN D4 D5. cbv zeta. rewrite Ha, Hb, Hc, Hd.
  destruct (nonzero (delayBus p)); cbn [app];
    repeat first
      [ rewrite pulses_pause
      | rewrite pulses_rise by assumption
      | rewrite pulses_fall by assumption
      | rewrite pulses_idle by assumption ];
    reflexivity.
Qed.

Lemma bind_run {A B} (m : M A) (k : A -> M B) w :
  bind m k w = k (result m w) (exec m w).
Proof. unfold bind, result, exec. destruct (m w); reflexivity. Qed.

(** ** The initialisation sequencer *)

(** C3: once the bus is open, [sevenseg_init_i2c] makes exactly five
    enable pulses before it hands over to [common_init]: four with D4 and
    D5 raised (nibble 3, FUNCSET | IF_8BIT) and one with D5 alone (nibble
    2, the switch to 4-bit mode).  The pauses after their falling edges
    are 15000, 5000, 100, 100 and 100 microseconds, whatever [delayBus]
    is and whether or not the writes are acknowledged. *)
Theorem init_i2c_five_pulses IF_4BIT I2C_DEFAULT_DEVICE
    (i2c_open : string -> Z -> option Z)
    (common_init : PrivateData -> Z -> M PrivateData) device p w hdl :
  wf_lines p = true ->
  i2c_open (String.substring 0 255 (default I2C_DEFAULT_DEVICE device))
           (Z.land (port p) I2C_ADDR_MASK) = Some hdl ->
  let EN := i2c_line_EN p in
  let D4 := i2c_line_D4 p in
  let D5 := i2c_line_D5 p in
  let p1 := set_i2c p (Some hdl) in
  exists evs w1,
    trace w1 = trace w ++ evs
    /\ sevenseg_init_i2c IF_4BIT I2C_DEFAULT_DEVICE i2c_open common_init device p w =
       ((0, result (common_init p1 IF_4BIT) w1), exec (common_init p1 IF_4BIT) w1)
    /\ pulses EN None evs =
       [(Z.lor (Z.lor EN D4) D5, 15000); (Z.lor (Z.lor EN D4) D5, 5000);
        (Z.lor (Z.lor EN D4) D5, 100); (Z.lor (Z.lor EN D4) D5, 100);
        (Z.lor EN D5, 100)]
    /\ length (pulses EN None evs) = 5%nat
    /\ map (fun pulse => data_nibble p (fst pulse)) (pulses EN None evs) = [3; 3; 3; 3; 2]
    /\ map snd (pulses EN None evs) = [15000; 5000; 100; 100; 100].
Proof.
  intros Hwf Hopen EN D4 D5 p1.
  set (info := Report RPT_INFO
         "sevenseg: I2C: Using device '%s' and address 0x%02X for a %s").
  destruct (powerup_emits p1 (exec (emit info) w)) as (evs & Htr & Hsig).
  exists (info :: evs), (exec (powerup p1) (exec (emit info) w)).
  assert (Hp : pulses EN None (info :: evs) =
               [(Z.lor (Z.lor EN D4) D5, 15000); (Z.lor (Z.lor EN D4) D5, 5000);
                (Z.lor (Z.lor EN D4) D5, 100); (Z.lor (Z.lor EN D4) D5, 100);
                (Z.lor EN D5, 100)]).
  { change (pulses EN None (info :: evs)) with (pulses EN None evs).
    rewrite <- pulses_signals, Hsig. apply (powerup_pulses p Hwf). }
  split; [ | split; [ | split; [exact Hp | split; [ | split]]]].
  - rewrite Htr. cbn. rewrite <- app_assoc. reflexivity.
  - unfold sevenseg_init_i2c. cbv zeta. rewrite Hopen.
    rewrite bind_run. cbn [i2c set_i2c]. fold p1.
    rewrite bind_run. rewrite bind_run. reflexivity.
  - rewrite Hp. reflexivity.
  - rewrite Hp. cbn [map fst].
    wf_lines_facts Hwf. subst EN D4 D5.
    assert (N3 : data_nibble p (Z.lor (Z.lor (i2c_line_EN p) (i2c_line_D4 p))
                                      (i2c_line_D5 p)) = 3)
      by (unfold data_nibble; lines_test; reflexivity).
    assert (N2 : data_nibble p (Z.lor (i2c_line_EN p) (i2c_line_D5 p)) = 2)
      by (unfold data_nibble; lines_test; reflexivity).
    rewrite N3, N2. reflexivity.
  - rewrite Hp. reflexivity.
Qed.

(** Power-up of the example session on a bus that drops the second
    write. *)
Lemma init_i2c_five_pulses_witness :
  exists evs w1,
    trace w1 = evs
    /\ sevenseg_init_i2c 0 "/dev/i2c-0" (fun _ _ => Some 3) (fun p _ => ret p)
         None example_session (mkWorld [true; false] false []) =
       ((0, example_session), w1)
    /\ pulses 0x40 None evs =
       [(0x43, 15000); (0x43, 5000); (0x43, 100); (0x43, 100); (0x42, 100)].
Proof.
  destruct (init_i2c_five_pulses 0 "/dev/i2c-0" (fun _ _ => Some 3) (fun p _ => ret p)
              None example_session (mkWorld [true; false] false []) 3
              eq_refl eq_refl)
    as (evs & w1 & Htr & Hrun & Hp & _).
  exists evs, w1. split; [exact Htr | split; [exact Hrun | exact Hp]].
Defined.

(** ** Reports and pauses of a program *)

Lemma next_acks_add n1 n2 : forall acks,
  next_acks (n1 + n2) acks = next_acks n1 acks ++ next_acks n2 (drop n1 acks).
Proof.
  induction n1 as [|n1 IH]; intros acks; [reflexivity | ].
  destruct acks as [|a acks]; cbn [Nat.add next_acks app drop].
  - rewrite IH, drop_nil. reflexivity.
  - rewrite IH. reflexivity.
Qed.

Lemma latched_levels_app a b : forall q,
  latched_levels q (a ++ b) =
  latched_levels q a ++ latched_levels (q || existsb negb a) b.
Proof.
  induction a as [|[] a IH]; intros q; cbn [app latched_levels existsb negb orb].
  - rewrite orb_false_r. reflexivity.
  - apply IH.
  - rewrite IH, orb_true_r. reflexivity.
Qed.

Lemma logs_ret {A} (a : A) : logs (ret a) 0.
Proof.
  intros w. rewrite exec_ret. cbn.
  rewrite app_nil_r, orb_false_r. repeat split.
Qed.

Lemma logs_bind {A B} (m : M A) (k : A -> M B) n1 n2 :
  logs m n1 -> (forall a, logs (k a) n2) -> logs (bind m k) (n1 + n2).
Proof.
  intros Hm Hk w. rewrite exec_bind.
  destruct (Hm w) as (R1 & L1 & A1).
  destruct (Hk (result m w) (exec m w)) as (R2 & L2 & A2).
  rewrite R2, L2, A2, R1, L1, A1.
  rewrite next_acks_add, latched_levels_app, existsb_app, drop_drop.
  rewrite <- app_assoc, orb_assoc. repeat split.
Qed.

Lemma logs_i2c_out p v : logs (i2c_out p v) 1.
Proof.
  intros w. rewrite i2c_out_report_levels, i2c_out_latch, i2c_out_acks.
  unfold next_ack. destruct (bus_acks w) as [|[] acks]; cbn;
    rewrite ?orb_false_r, ?orb_true_r, ?drop_0; repeat split.
Qed.

Lemma logs_uPause p u : logs (uPause p u) 0.
Proof.
  intros w. unfold uPause, emit, exec. cbn.
  rewrite report_levels_app. cbn. rewrite orb_false_r. repeat split.
Qed.

Lemma logs_when_uPause c p u : logs (when c (uPause p u)) 0.
Proof. destruct c; [apply logs_uPause | apply logs_ret]. Qed.

Lemma logs_eq {A} (m : M A) n n' : logs m n' -> n' = n -> logs m n.
Proof. intros H <-. exact H. Qed.

Ltac logs_steps :=
  repeat (eapply logs_bind;
          [ first [apply logs_i2c_out | apply logs_when_uPause | apply logs_uPause]
          | intros _ ]).

Lemma pause_total_app a b : pause_total (a ++ b) = pause_total a + pause_total b.
Proof.
  induction a as [|[v | lvl fmt | u] a IH]; cbn [app pause_total]; lia.
Qed.

Lemma pauses_for_ret {A} (a : A) : pauses_for (ret a) 0.
Proof. intros w. rewrite exec_ret. lia. Qed.

Lemma pauses_for_bind {A B} (m : M A) (k : A -> M B) t1 t2 :
  pauses_for m t1 -> (forall a, pauses_for (k a) t2) -> pauses_for (bind m k) (t1 + t2).
Proof.
  intros Hm Hk w. rewrite exec_bind, Hk, Hm. lia.
Qed.

Lemma pauses_for_i2c_out p v : pauses_for (i2c_out p v) 0.
Proof.
  intros w. rewrite i2c_out_trace, pause_total_app.
  destruct (next_ack w); cbn; lia.
Qed.

Lemma pauses_for_uPause p u : pauses_for (uPause p u) u.
Proof.
  intros w. unfold uPause, emit, exec. cbn. rewrite pause_total_app. cbn. lia.
Qed.

Lemma pauses_for_when_uPause c p u :
  pauses_for (when c (uPause p u)) (if c then u else 0).
Proof. destruct c; [apply pauses_for_uPause | apply pauses_for_ret]. Qed.

Lemma pauses_for_eq {A} (m : M A) t t' : pauses_for m t' -> t' = t -> pauses_for m t.
Proof. intros H <-. exact H. Qed.

Ltac pauses_steps :=
  repeat (eapply pauses_for_bind;
          [ first [apply pauses_for_i2c_out | apply pauses_for_when_uPause
                  | apply pauses_for_uPause]
          | intros _ ]).

Lemma latched_levels_quiet acks :
  Forall (eq RPT_DEBUG) (latched_levels true acks).
Proof.
  induction acks as [|[] acks IH]; cbn [latched_levels]; [constructor | exact IH | ].
  constructor; [reflexivity | exact IH].
Qed.

Lemma count_errors_debug lvls : Forall (eq RPT_DEBUG) lvls -> count_errors lvls = 0%nat.
Proof.
  unfold count_errors. induction 1 as [|lvl lvls <- _ IH]; [reflexivity | exact IH].
Qed.

Lemma latched_levels_one_error q acks :
  (count_errors (latched_levels q acks) <= 1)%nat.
Proof.
  revert q. induction acks as [|[] acks IH]; intros q; cbn [latched_levels].
  - cbn. lia.
  - apply IH.
  - destruct q.
    + change (count_errors (latched_levels true (false :: acks)) <= 1)%nat.
      rewrite count_errors_debug by apply latched_levels_quiet. lia.
    + unfold count_errors. cbn [List.filter ReportLevel_eqb length].
      fold (count_errors (latched_levels true acks)).
      rewrite count_errors_debug by apply latched_levels_quiet. lia.
Qed.

Lemma senddata_logs RS_INSTR p displayID flags ch :
  logs (i2c_sevenseg_senddata RS_INSTR p displayID flags ch) 6.
Proof.
  unfold i2c_sevenseg_senddata. cbv zeta.
  eapply logs_eq; [logs_steps; apply logs_i2c_out | reflexivity].
Qed.

Lemma powerup_logs p : logs (powerup p) 12.
Proof.
  unfold powerup. cbv zeta.
  eapply logs_eq; [logs_steps; apply logs_uPause | reflexivity].
Qed.

Lemma powerup_pauses p :
  pauses_for (powerup p) (20300 + (if nonzero (delayBus p) then 7 else 0)).
Proof.
  unfold powerup. cbv zeta.
  eapply pauses_for_eq; [pauses_steps; apply pauses_for_uPause | ].
  destruct (nonzero (delayBus p)); reflexivity.
Qed.

(** ** More on the line driver *)

(** X1: whatever fails on the bus, one call of [i2c_sevenseg_senddata]
    reports as the latch says for its six writes: at most one report at
    error level, and none once the latch is set; the latch is set
    afterwards when it was set before or a write failed. *)
Theorem senddata_reports_latched RS_INSTR p displayID flags ch w :
  let w' := exec (i2c_sevenseg_senddata RS_INSTR p displayID flags ch) w in
  let new := latched_levels (no_more_errormsgs w) (next_acks 6 (bus_acks w)) in
  report_levels (trace w') = report_levels (trace w) ++ new
  /\ (count_errors new <= 1)%nat
  /\ (no_more_errormsgs w = true -> Forall (eq RPT_DEBUG) new)
  /\ no_more_errormsgs w' =
     no_more_errormsgs w || existsb negb (next_acks 6 (bus_acks w))
  /\ bus_acks w' = drop 6 (bus_acks w).
Proof.
  intros w' new.
  destruct (senddata_logs RS_INSTR p displayID flags ch w) as (HR & HL & HA).
  split; [exact HR | split; [apply latched_levels_one_error | split]].
  - intros Hq. unfold new. rewrite Hq. apply latched_levels_quiet.
  - split; [exact HL | exact HA].
Qed.

(** A data byte on a bus that fails from the third write on, with the
    latch set before: debug reports only. *)
Lemma senddata_reports_latched_witness :
  report_levels (trace (exec (i2c_sevenseg_senddata 1 example_session 0 0 0x41)
                             (mkWorld [true; true; false; false; false; false] true []))) =
  [RPT_DEBUG; RPT_DEBUG; RPT_DEBUG; RPT_DEBUG]
  /\ Forall (eq RPT_DEBUG) [RPT_DEBUG; RPT_DEBUG; RPT_DEBUG; RPT_DEBUG].
Proof.
  destruct (senddata_reports_latched 1 example_session 0 0 0x41
              (mkWorld [true; true; false; false; false; false] true []))
    as (Hr & _ & Hq & _).
  split; [exact Hr | exact (Hq eq_refl)].
Defined.

(** X2: [i2c_sevenseg_senddata] pauses four times for a microsecond when
    [delayBus] is set and not at all when it is clear. *)
Theorem senddata_pause_total RS_INSTR p displayID flags ch w :
  pause_total (trace (exec (i2c_sevenseg_senddata RS_INSTR p displayID flags ch) w)) =
  pause_total (trace w) + (if nonzero (delayBus p) then 4 else 0).
Proof.
  revert w. change (pauses_for (i2c_sevenseg_senddata RS_INSTR p displayID flags ch)
                               (if nonzero (delayBus p) then 4 else 0)).
  unfold i2c_sevenseg_senddata. cbv zeta.
  eapply pauses_for_eq; [pauses_steps; apply pauses_for_i2c_out | ].
  destruct (nonzero (delayBus p)); reflexivity.
Qed.

Lemma senddata_written RS_INSTR p displayID flags ch w :
  wf_session p -> 0 <= flags < 256 -> 0 <= ch < 256 ->
  let EN := i2c_line_EN p in
  let pc := Z.lor (if flags =? RS_INSTR then 0 else i2c_line_RS p) (backlight_bit p) in
  let h := nibble_lines p (ch / 16) in
  let l := nibble_lines p (ch mod 16) in
  bus_writes (trace (exec (i2c_sevenseg_senddata RS_INSTR p displayID flags ch) w)) =
    bus_writes (trace w) ++
    [Z.lor pc h; Z.lor (Z.lor EN pc) h; Z.lor pc h;
     Z.lor pc l; Z.lor (Z.lor EN pc) l; Z.lor pc l].
Proof.
  intros Hwf Hflags Hch EN pc h l.
  unfold i2c_sevenseg_senddata. cbv zeta.
  rewrite !exec_bind.
  repeat first [rewrite i2c_out_bus_writes | rewrite when_uPause_bus_writes].
  rewrite <- !app_assoc. cbn [app]. apply f_equal.
  rewrite (u8_small flags Hflags), (u8_small ch Hch).
  destruct (byte_masks ch Hch) as (-> & -> & -> & -> & -> & -> & -> & ->).
  pose proof (nibble_code p Hwf (Z.testbit (ch / 16) 3) (Z.testbit (ch / 16) 2)
                (Z.testbit (ch / 16) 1) (Z.testbit (ch / 16) 0)) as Hh.
  pose proof (nibble_code p Hwf (Z.testbit (ch mod 16) 3) (Z.testbit (ch mod 16) 2)
                (Z.testbit (ch mod 16) 1) (Z.testbit (ch mod 16) 0)) as Hl.
  cbv zeta in Hh, Hl. rewrite Hh, Hl.
  fold (nibble_lines p (ch / 16)). fold (nibble_lines p (ch mod 16)).
  rewrite (port_control_code p Hwf (flags =? RS_INSTR)).
  destruct (u8_port_byte p Hwf (flags =? RS_INSTR) (ch / 16)) as [-> ->].
  destruct (u8_port_byte p Hwf (flags =? RS_INSTR) (ch mod 16)) as [-> ->].
  reflexivity.
Qed.

(** ** More on the backlight *)

Lemma backlight_result p state w :
  result (i2c_sevenseg_backlight p state) w =
  set_backlight_bit p
    (if i2c_backlight_invert p =? 0
     then (if negb (have_backlight_pin p) || nonzero (u8 state) then 0 else i2c_line_BL p)
     else (if have_backlight_pin p && nonzero (u8 state) then i2c_line_BL p else 0)).
Proof.
  unfold i2c_sevenseg_backlight. rewrite result_bind, result_ret.
  destruct (i2c_backlight_invert p =? 0); reflexivity.
Qed.

Lemma backlight_bus_writes p state w :
  bus_writes (trace (exec (i2c_sevenseg_backlight p state) w)) =
  bus_writes (trace w) ++ [u8 (backlight_bit (result (i2c_sevenseg_backlight p state) w))].
Proof.
  rewrite backlight_result. unfold i2c_sevenseg_backlight.
  rewrite exec_bind, exec_ret, i2c_out_bus_writes.
  destruct (i2c_backlight_invert p =? 0); reflexivity.
Qed.

Lemma backlight_session p state w :
  wf_lines p = true ->
  let p' := result (i2c_sevenseg_backlight p state) w in
  wf_session p'
  /\ p' = set_backlight_bit p (backlight_bit p')
  /\ (backlight_bit p' = 0 \/ backlight_bit p' = i2c_line_BL p).
Proof.
  intros Hwf p'. subst p'. rewrite backlight_result.
  set (b := if i2c_backlight_invert p =? 0 then _ else _).
  assert (Hb : b = 0 \/ b = i2c_line_BL p).
  { subst b. destruct (i2c_backlight_invert p =? 0), (have_backlight_pin p),
      (nonzero (u8 state)); cbn; auto. }
  split; [split; [exact Hwf | exact Hb] | split; [reflexivity | exact Hb]].
Qed.

(** X3: on a well-formed pin map [i2c_sevenseg_backlight] leaves a
    well-formed session, whatever the backlight bit was before: the new
    bit is clear or the BL line, and no other field changes. *)
Theorem backlight_keeps_session p state w :
  wf_lines p = true ->
  let p' := result (i2c_sevenseg_backlight p state) w in
  wf_session p'
  /\ p' = set_backlight_bit p (backlight_bit p')
  /\ (backlight_bit p' = 0 \/ backlight_bit p' = i2c_line_BL p).
Proof.
  intros Hwf p'. subst p'. rewrite backlight_result.
  cbn [backlight_bit set_backlight_bit].
  split; [split; [exact Hwf | ] | split; [reflexivity | ]];
    cbn [backlight_bit set_backlight_bit i2c_line_BL];
    destruct (i2c_backlight_invert p =? 0), (have_backlight_pin p),
      (nonzero (u8 state)); cbn; auto.
Qed.

(** A session whose backlight bit is rubbish becomes well formed. *)
Lemma backlight_keeps_session_witness :
  wf_session (result (i2c_sevenseg_backlight
                        (set_backlight_bit example_session 0x55) 1) quiet_world).
Proof.
  destruct (backlight_keeps_session (set_backlight_bit example_session 0x55) 1
              quiet_world eq_refl) as (Hs & _).
  exact Hs.
Defined.

(** X4: the last call of [i2c_sevenseg_backlight] wins: after two calls
    the private data is what the second call alone gives. *)
Theorem backlight_last_call_wins p s1 s2 w1 w2 w :
  result (i2c_sevenseg_backlight (result (i2c_sevenseg_backlight p s1) w1) s2) w2 =
  result (i2c_sevenseg_backlight p s2) w.
Proof.
  rewrite !backlight_result. destruct p; reflexivity.
Qed.

(** X5: [i2c_sevenseg_backlight] followed by [i2c_sevenseg_senddata]:
    the backlight write comes first, then the six writes of the byte,
    each of which carries the backlight bit just computed and the data
    nibbles of the byte. *)
Theorem backlight_then_senddata RS_INSTR p state displayID flags ch w :
  wf_lines p = true ->
  0 <= flags < 256 ->
  0 <= ch < 256 ->
  let prog := (p' <- i2c_sevenseg_backlight p state ;;
               i2c_sevenseg_senddata RS_INSTR p' displayID flags ch)%io in
  let bl := backlight_bit (result (i2c_sevenseg_backlight p state) w) in
  exists written,
    bus_writes (trace (exec prog w)) = bus_writes (trace w) ++ bl :: written
    /\ length written = 6%nat
    /\ Forall (fun v => Z.land v (i2c_line_BL p) = bl) written
    /\ map (data_nibble p) written =
       [ch / 16; ch / 16; ch / 16; ch mod 16; ch mod 16; ch mod 16].
Proof.
  intros Hwf Hflags Hch prog bl.
  destruct (backlight_session p state w Hwf) as (Hs & Hp' & Hb).
  set (p' := result (i2c_sevenseg_backlight p state) w) in *.
  assert (Hlines : i2c_line_EN p' = i2c_line_EN p /\ i2c_line_RS p' = i2c_line_RS p
                   /\ i2c_line_BL p' = i2c_line_BL p /\ data_nibble p' = data_nibble p).
  { rewrite Hp'. repeat split. }
  destruct Hlines as (HEN & HRS & HBL & Hdn).
  assert (Hhi : 0 <= ch / 16 < 16)
    by (split; [apply Z.div_pos; lia | apply Z.div_lt_upper_bound; lia]).
  assert (Hlo : 0 <= ch mod 16 < 16) by (apply Z.mod_pos_bound; lia).
  pose proof (senddata_written RS_INSTR p' displayID flags ch
                (exec (i2c_sevenseg_backlight p state) w) Hs Hflags Hch) as Hw.
  cbv zeta in Hw.
  eexists. split; [ | split; [ | split]].
  - unfold prog. rewrite exec_bind. fold p'. rewrite Hw.
    rewrite backlight_bus_writes. fold p'. fold bl.
    rewrite <- app_assoc. cbn [app]. f_equal. f_equal.
    pose proof Hwf as Hl. wf_lines_facts Hl.
    apply u8_small. fold bl in Hb. destruct Hb as [-> | ->]; lia.
  - reflexivity.
  - pose proof (control_lines p' Hs false (flags =? RS_INSTR) (ch / 16)) as (_ & _ & B1).
    pose proof (control_lines p' Hs true (flags =? RS_INSTR) (ch / 16)) as (_ & _ & B2).
    pose proof (control_lines p' Hs false (flags =? RS_INSTR) (ch mod 16)) as (_ & _ & B3).
    pose proof (control_lines p' Hs true (flags =? RS_INSTR) (ch mod 16)) as (_ & _ & B4).
    cbv beta iota in B1, B2, B3, B4. rewrite Z.lor_0_l in B1, B3.
    rewrite HBL in B1, B2, B3, B4.
    repeat constructor; assumption.
  - rewrite <- Hdn.
    pose proof (data_nibble_lines p' Hs false (flags =? RS_INSTR) _ Hhi) as D1.
    pose proof (data_nibble_lines p' Hs true (flags =? RS_INSTR) _ Hhi) as D2.
    pose proof (data_nibble_lines p' Hs false (flags =? RS_INSTR) _ Hlo) as D3.
    pose proof (data_nibble_lines p' Hs true (flags =? RS_INSTR) _ Hlo) as D4.
    cbv beta iota in D1, D2, D3, D4. rewrite Z.lor_0_l in D1, D3.
    cbn [map]. unfold bl. rewrite D1, D2, D3, D4. reflexivity.
Qed.

(** Backlight off (BL raised), then the data byte 0x41. *)
Lemma backlight_then_senddata_witness :
  exists written,
    bus_writes (trace (exec (p' <- i2c_sevenseg_backlight example_session 0 ;;
                             i2c_sevenseg_senddata 1 p' 0 0 0x41)%io quiet_world)) =
      0x80 :: written
    /\ Forall (fun v => Z.land v 0x80 = 0x80) written.
Proof.
  destruct (backlight_then_senddata 1 example_session 0 0 0 0x41 quiet_world
              eq_refl ltac:(lia) ltac:(lia)) as (written & Hw & _ & Hbl & _).
  exists written. split; [exact Hw | exact Hbl].
Defined.

(** ** More on the initialisation sequencer *)

(** X6: when [i2c_open] fails, [sevenseg_init_i2c] returns -1 with no
    handle in the private data, after an info and an error report; it
    writes nothing to the bus, does not pause, leaves the latch and the
    coming bus outcomes alone, and does not call [common_init]. *)
Theorem init_i2c_open_failure IF_4BIT I2C_DEFAULT_DEVICE
    (i2c_open : string -> Z -> option Z)
    (common_init : PrivateData -> Z -> M PrivateData) device p w :
  i2c_open (String.substring 0 255 (default I2C_DEFAULT_DEVICE device))
           (Z.land (port p) I2C_ADDR_MASK) = None ->
  let run := sevenseg_init_i2c IF_4BIT I2C_DEFAULT_DEVICE i2c_open common_init device p in
  result run w = (-1, set_i2c p None)
  /\ bus_writes (trace (exec run w)) = bus_writes (trace w)
  /\ pause_total (trace (exec run w)) = pause_total (trace w)
  /\ report_levels (trace (exec run w)) = report_levels (trace w) ++ [RPT_INFO; RPT_ERR]
  /\ no_more_errormsgs (exec run w) = no_more_errormsgs w
  /\ bus_acks (exec run w) = bus_acks w
  /\ (forall other_init,
        run w = sevenseg_init_i2c IF_4BIT I2C_DEFAULT_DEVICE i2c_open other_init device p w).
Proof.
  intros Hopen run. subst run. unfold sevenseg_init_i2c. cbv zeta.
  rewrite Hopen. cbn [i2c set_i2c].
  unfold result, exec, bind, emit, ret. cbn [fst snd trace bus_acks no_more_errormsgs].
  rewrite <- !app_assoc. cbn [app].
  rewrite bus_writes_app, pause_total_app, report_levels_app. cbn.
  rewrite app_nil_r, Z.add_0_r. repeat split.
Qed.

(** No device behind the bus: nothing is written. *)
Lemma init_i2c_open_failure_witness :
  result (sevenseg_init_i2c 0 "/dev/i2c-0" (fun _ _ => None) (fun p _ => ret p)
            None example_session) quiet_world = (-1, set_i2c example_session None)
  /\ bus_writes (trace (exec (sevenseg_init_i2c 0 "/dev/i2c-0" (fun _ _ => None)
                                (fun p _ => ret p) None example_session) quiet_world)) = [].
Proof.
  destruct (init_i2c_open_failure 0 "/dev/i2c-0" (fun _ _ => None) (fun p _ => ret p)
              None example_session quiet_world eq_refl) as (Hr & Hb & _).
  split; [exact Hr | exact Hb].
Defined.

Lemma bus_writes_signals tr : bus_writes (signals tr) = bus_writes tr.
Proof.
  unfold signals, bus_writes.
  induction tr as [|[v | lvl fmt | u] tr IH]; cbn; try assumption; [reflexivity | ].
  f_equal. exact IH.
Qed.

Lemma init_i2c_run IF_4BIT I2C_DEFAULT_DEVICE
    (i2c_open : string -> Z -> option Z)
    (common_init : PrivateData -> Z -> M PrivateData) device p w hdl :
  i2c_open (String.substring 0 255 (default I2C_DEFAULT_DEVICE device))
           (Z.land (port p) I2C_ADDR_MASK) = Some hdl ->
  let p1 := set_i2c p (Some hdl) in
  let w0 := exec (emit (Report RPT_INFO
              "sevenseg: I2C: Using device '%s' and address 0x%02X for a %s")) w in
  let w1 := exec (powerup p1) w0 in
  sevenseg_init_i2c IF_4BIT I2C_DEFAULT_DEVICE i2c_open common_init device p w =
  ((0, result (common_init p1 IF_4BIT) w1), exec (common_init p1 IF_4BIT) w1).
Proof.
  intros Hopen p1 w0 w1.
  unfold sevenseg_init_i2c. cbv zeta. rewrite Hopen.
  rewrite bind_run. cbn [i2c set_i2c]. fold p1.
  rewrite bind_run. rewrite bind_run. reflexivity.
Qed.

(** X7: when [i2c_open] succeeds, [sevenseg_init_i2c] makes twelve bus
    writes before it calls [common_init], and on a well-formed pin map
    none of them raises RS, the backlight line, D6 or D7: the backlight
    bit of the session is not applied during power-up. *)
Theorem init_i2c_twelve_writes IF_4BIT I2C_DEFAULT_DEVICE
    (i2c_open : string -> Z -> option Z)
    (common_init : PrivateData -> Z -> M PrivateData) device p w hdl :
  wf_lines p = true ->
  i2c_open (String.substring 0 255 (default I2C_DEFAULT_DEVICE device))
           (Z.land (port p) I2C_ADDR_MASK) = Some hdl ->
  let p1 := set_i2c p (Some hdl) in
  let lo := Z.lor (i2c_line_D4 p) (i2c_line_D5 p) in
  let hi := Z.lor (Z.lor (i2c_line_EN p) (i2c_line_D4 p)) (i2c_line_D5 p) in
  let written :=
    [lo; hi; lo; hi; lo; hi; lo; hi; lo;
     i2c_line_D5 p; Z.lor (i2c_line_EN p) (i2c_line_D5 p); i2c_line_D5 p] in
  exists w1,
    sevenseg_init_i2c IF_4BIT I2C_DEFAULT_DEVICE i2c_open common_init device p w =
      ((0, result (common_init p1 IF_4BIT) w1), exec (common_init p1 IF_4BIT) w1)
    /\ bus_writes (trace w1) = bus_writes (trace w) ++ written
    /\ length written = 12%nat
    /\ Forall (fun v => line_high v (i2c_line_RS p) = false
                        /\ line_high v (i2c_line_BL p) = false
                        /\ line_high v (i2c_line_D6 p) = false
                        /\ line_high v (i2c_line_D7 p) = false) written.
Proof.
  intros Hwf Hopen p1 lo hi written.
  eexists. split; [apply (init_i2c_run _ _ _ _ _ _ _ _ Hopen) | ].
  fold p1.
  set (w0 := exec (emit _) w).
  destruct (powerup_emits p1 w0) as (evs & Htr & Hsig).
  pose proof Hwf as Hl. wf_lines_facts Hl.
  split; [ | split; [reflexivity | ]].
  - rewrite Htr, bus_writes_app, <- (bus_writes_signals evs), Hsig.
    assert (Hw0 : bus_writes (trace w0) = bus_writes (trace w)).
    { subst w0. unfold exec, emit. cbn. rewrite bus_writes_app. cbn. apply app_nil_r. }
    rewrite Hw0. f_equal.
    unfold powerup_signals. cbv zeta. cbn [i2c_line_EN i2c_line_D4 i2c_line_D5 p1 set_i2c delayBus].
    assert (Ha : u8 lo = lo) by (subst lo; lines_norm; reflexivity).
    assert (Hb : u8 hi = hi) by (subst hi; lines_norm; reflexivity).
    assert (Hc : u8 (i2c_line_D5 p) = i2c_line_D5 p) by (apply u8_small; lia).
    assert (Hd : u8 (Z.lor (i2c_line_EN p) (i2c_line_D5 p)) =
                 Z.lor (i2c_line_EN p) (i2c_line_D5 p)) by (lines_norm; reflexivity).
    fold lo hi. rewrite Ha, Hb, Hc, Hd.
    destruct (nonzero (delayBus p)); reflexivity.
  - unfold written, lo, hi.
    repeat constructor; lines_test; reflexivity.
Qed.

(** Power-up of the example session: the twelve port bytes. *)
Lemma init_i2c_twelve_writes_witness :
  exists w1,
    bus_writes (trace w1) =
      [0x03; 0x43; 0x03; 0x43; 0x03; 0x43; 0x03; 0x43; 0x03; 0x02; 0x42; 0x02]
    /\ sevenseg_init_i2c 0 "/dev/i2c-0" (fun _ _ => Some 3) (fun p _ => ret p)
         None example_session quiet_world = ((0, example_session), w1).
Proof.
  destruct (init_i2c_twelve_writes 0 "/dev/i2c-0" (fun _ _ => Some 3) (fun p _ => ret p)
              None example_session quiet_world 3 eq_refl eq_refl)
    as (w1 & Hrun & Hw & _).
  exists w1. split; [exact Hw | exact Hrun].
Defined.

(** X8: when [i2c_open] succeeds, [sevenseg_init_i2c] returns 0 whatever
    happens to its bus writes.  Up to the call of [common_init] it pauses
    for 20300 microseconds, and 7 more when [delayBus] is set; it reports
    once at info level and then as the latch says for twelve writes, so
    even on a dead bus there is one report at error level at most. *)
Theorem init_i2c_time_and_reports IF_4BIT I2C_DEFAULT_DEVICE
    (i2c_open : string -> Z -> option Z)
    (common_init : PrivateData -> Z -> M PrivateData) device p w hdl :
  i2c_open (String.substring 0 255 (default I2C_DEFAULT_DEVICE device))
           (Z.land (port p) I2C_ADDR_MASK) = Some hdl ->
  let p1 := set_i2c p (Some hdl) in
  let new := latched_levels (no_more_errormsgs w) (next_acks 12 (bus_acks w)) in
  exists w1,
    sevenseg_init_i2c IF_4BIT I2C_DEFAULT_DEVICE i2c_open common_init device p w =
      ((0, result (common_init p1 IF_4BIT) w1), exec (common_init p1 IF_4BIT) w1)
    /\ pause_total (trace w1) =
       pause_total (trace w) + 20300 + (if nonzero (delayBus p) then 7 else 0)
    /\ report_levels (trace w1) = report_levels (trace w) ++ RPT_INFO :: new
    /\ (count_errors new <= 1)%nat
    /\ bus_acks w1 = drop 12 (bus_acks w).
Proof.
  intros Hopen p1 new.
  eexists. split; [apply (init_i2c_run _ _ _ _ _ _ _ _ Hopen) | ].
  fold p1. set (w0 := exec (emit _) w).
  destruct (powerup_logs p1 w0) as (HR & _ & HA).
  split; [ | split; [ | split; [apply latched_levels_one_error | ]]].
  - rewrite (powerup_pauses p1 w0).
    subst w0. unfold exec, emit. cbn [snd trace]. rewrite pause_total_app. cbn.
    lia.
  - rewrite HR. subst w0. unfold exec, emit.
    cbn [snd trace bus_acks no_more_errormsgs].
    rewrite report_levels_app, <- app_assoc. reflexivity.
  - rewrite HA. reflexivity.
Qed.

(** Power-up on a bus where every write fails. *)
Lemma init_i2c_time_and_reports_witness :
  exists w1,
    sevenseg_init_i2c 0 "/dev/i2c-0" (fun _ _ => Some 3) (fun p _ => ret p)
      None example_session (mkWorld (repeat false 12) false []) =
      ((0, example_session), w1)
    /\ pause_total (trace w1) = 20300
    /\ report_levels (trace w1) = RPT_INFO :: RPT_ERR :: repeat RPT_DEBUG 11.
Proof.
  destruct (init_i2c_time_and_reports 0 "/dev/i2c-0" (fun _ _ => Some 3)
              (fun p _ => ret p) None example_session
              (mkWorld (repeat false 12) false []) 3 eq_refl)
    as (w1 & Hrun & Hp & Hr & _).
  exists w1. split; [exact Hrun | split; [exact Hp | exact Hr]].
Defined.

End I2cFacts.

(** * Properties of the sevenseg text driver *)

Module SevensegFacts.

Import Sevenseg SevensegSpec.

(** ** The flip transform *)

Lemma flip_seg7_bytes val :
  0 <= val < 256 ->
  swaps_segments val (flip_seg7 val) = true
  /\ Z.testbit (flip_seg7 val) 7 = false
  /\ 0 <= flip_seg7 val < 128
  /\ flip_seg7 (flip_seg7 val) = Z.land val 0x7f.
Proof.
  intros H.
  pose (P := fun v =>
    swaps_segments v (flip_seg7 v) && negb (Z.testbit (flip_seg7 v) 7) &&
    (0 <=? flip_seg7 v) && (flip_seg7 v <? 128) &&
    (flip_seg7 (flip_seg7 v) =? Z.land v 0x7f)).
  assert (HP : P val = true).
  { apply (forall_below P 256); [vm_compute; reflexivity | exact H]. }
  unfold P in HP.
  apply andb_prop in HP. destruct HP as [HP H5].
  apply andb_prop in HP. destruct HP as [HP H4].
  apply andb_prop in HP. destruct HP as [HP H3].
  apply andb_prop in HP. destruct HP as [H1 H2].
  apply negb_true_iff in H2. apply Z.leb_le in H3.
  apply Z.ltb_lt in H4. apply Z.eqb_eq in H5.
  split; [exact H1 | split; [exact H2 | split; [lia | exact H5]]].
Qed.

Lemma land_7f_small v : 0 <= v < 128 -> Z.land v 0x7f = v.
Proof.
  intros H. change 0x7f with (Z.ones 7). rewrite Z.land_ones by lia.
  apply Z.mod_small. change (2 ^ 7) with 128. lia.
Qed.

(** C4: on a seven-bit pattern [flip_seg7] swaps A with D, B with E and
    C with F and keeps G; the result is a seven-bit pattern again and
    flipping twice gives the pattern back.  So whenever a conversion map
    encodes a character as a seven-bit pattern, encoding and flipping
    twice gives the encoding. *)
Theorem flip_seg7_involution (SegMap : Type) (map_seg7 : SegMap)
    (map_to_seg7 : SegMap -> Z -> Z) (pattern c : Z) :
  0 <= pattern < 128 ->
  0 <= map_to_seg7 map_seg7 c < 128 ->
  let flipped := flip_seg7 pattern in
  Z.testbit flipped BIT_SEG7_A = Z.testbit pattern BIT_SEG7_D
  /\ Z.testbit flipped BIT_SEG7_D = Z.testbit pattern BIT_SEG7_A
  /\ Z.testbit flipped BIT_SEG7_B = Z.testbit pattern BIT_SEG7_E
  /\ Z.testbit flipped BIT_SEG7_E = Z.testbit pattern BIT_SEG7_B
  /\ Z.testbit flipped BIT_SEG7_C = Z.testbit pattern BIT_SEG7_F
  /\ Z.testbit flipped BIT_SEG7_F = Z.testbit pattern BIT_SEG7_C
  /\ Z.testbit flipped BIT_SEG7_G = Z.testbit pattern BIT_SEG7_G
  /\ 0 <= flipped < 128
  /\ flip_seg7 flipped = pattern
  /\ flip_seg7 (flip_seg7 (map_to_seg7 map_seg7 c)) = map_to_seg7 map_seg7 c.
Proof.
  intros Hp Hc flipped.
  destruct (flip_seg7_bytes pattern ltac:(lia)) as (Hs & _ & Hr & Hi).
  destruct (flip_seg7_bytes (map_to_seg7 map_seg7 c) ltac:(lia)) as (_ & _ & _ & Hic).
  rewrite land_7f_small in Hi, Hic by assumption.
  unfold swaps_segments in Hs.
  repeat (apply andb_prop in Hs; destruct Hs as [Hs ?]).
  subst flipped.
  repeat match goal with H : Bool.eqb _ _ = true |- _ => apply Bool.eqb_prop in H end.
  repeat split; try assumption; lia.
Qed.

(** The pattern of the digit 1 (segments B and C) flips to E and F and
    back; the digit 2 of the example map survives two flips. *)
Lemma flip_seg7_involution_witness :
  flip_seg7 0x06 = 0x30 /\ flip_seg7 0x30 = 0x06
  /\ flip_seg7 (flip_seg7 (example_map_to_seg7 example_map 50)) =
     example_map_to_seg7 example_map 50.
Proof.
  destruct (flip_seg7_involution (list Z) example_map example_map_to_seg7 0x06 50
              ltac:(lia) ltac:(vm_compute; split; [discriminate | reflexivity]))
    as (_ & _ & _ & _ & _ & _ & _ & _ & Hi & Hc).
  split; [reflexivity | split; [exact Hi | exact Hc]].
Defined.

(** C9: on every byte [flip_seg7] gives a value whose bit 7 is clear,
    so on bytes flipping twice is masking with 0x7f: a byte with bit 7
    set does not come back. *)
Theorem flip_seg7_drops_bit7 val :
  0 <= val < 256 ->
  Z.testbit (flip_seg7 val) 7 = false
  /\ 0 <= flip_seg7 val < 128
  /\ flip_seg7 (flip_seg7 val) = Z.land val 0x7f
  /\ (Z.testbit val 7 = true -> flip_seg7 (flip_seg7 val) <> val).
Proof.
  intros H.
  destruct (flip_seg7_bytes val H) as (_ & Hb & Hr & Hi).
  repeat split; try assumption; try lia.
  intros H7 Heq.
  destruct (flip_seg7_bytes (flip_seg7 val) ltac:(lia)) as (_ & Hb' & _).
  rewrite Heq in Hb'. congruence.
Qed.

(** The byte 0xbf loses its bit 7 in two flips. *)
Lemma flip_seg7_drops_bit7_witness :
  flip_seg7 (flip_seg7 0xbf) = 0x3f /\ flip_seg7 (flip_seg7 0xbf) <> 0xbf.
Proof.
  destruct (flip_seg7_drops_bit7 0xbf ltac:(lia)) as (_ & _ & Hi & Hne).
  split; [exact Hi | exact (Hne eq_refl)].
Defined.

(** ** Writing into the frame buffer *)

Lemma string_loop_length p y : forall s x fb,
  length (string_loop p y x s fb) = length fb.
Proof.
  induction s as [|c s IH]; intros x fb; cbn [string_loop]; [reflexivity | ].
  destruct (negb (c =? NUL) && (x <? width p)); [ | reflexivity].
  rewrite IH. destruct (0 <=? x); [ | reflexivity].
  unfold store. apply length_insert.
Qed.

Lemma cell_index_eq W r1 c1 r2 c2 :
  0 <= c1 < W -> 0 <= c2 < W -> 0 <= r1 -> 0 <= r2 ->
  Z.to_nat (r1 * W + c1) = Z.to_nat (r2 * W + c2) -> r1 = r2 /\ c1 = c2.
Proof.
  intros Hc1 Hc2 Hr1 Hr2 Heq.
  assert (0 <= r1 * W) by (apply Z.mul_nonneg_nonneg; lia).
  assert (0 <= r2 * W) by (apply Z.mul_nonneg_nonneg; lia).
  assert (Hz : r1 * W + c1 = r2 * W + c2) by lia.
  destruct (Z.lt_trichotomy r1 r2) as [Hlt | [-> | Hgt]].
  - assert ((r1 + 1) * W <= r2 * W) by (apply Z.mul_le_mono_nonneg_r; lia). lia.
  - lia.
  - assert ((r2 + 1) * W <= r1 * W) by (apply Z.mul_le_mono_nonneg_r; lia). lia.
Qed.

Lemma store_lookup W H fb y x r c ch :
  length fb = Z.to_nat (W * H) ->
  0 <= y < H -> 0 <= r < H -> 0 <= c < W -> x < W ->
  (if 0 <=? x then store fb (y * W + x) ch else fb) !! Z.to_nat (r * W + c) =
  if (r =? y) && (c =? x) then Some ch else fb !! Z.to_nat (r * W + c).
Proof.
  intros Hlen Hy Hr Hc Hx.
  destruct (Z.leb_spec 0 x) as [Hx0 | Hx0].
  - destruct (Z.eqb_spec r y) as [-> | Hry]; cbn [andb].
    + destruct (Z.eqb_spec c x) as [-> | Hcx].
      * unfold store. apply list_lookup_insert_eq.
        assert ((y + 1) * W <= H * W) by (apply Z.mul_le_mono_nonneg_r; lia).
        assert (0 <= y * W) by (apply Z.mul_nonneg_nonneg; lia).
        lia.
      * unfold store. apply list_lookup_insert_ne.
        intros Heq. apply cell_index_eq in Heq; lia.
    + unfold store. apply list_lookup_insert_ne.
      intros Heq. apply cell_index_eq in Heq; lia.
  - destruct (Z.eqb_spec c x); [lia | ]. rewrite andb_false_r. reflexivity.
Qed.

(** The loop of [sevenseg_string], cell by cell: in row [y] the columns
    from [x] on take the characters of the string, as far as the string
    and the row go; every other cell keeps its value. *)
Lemma string_loop_lookup p y H (Hy : 0 <= y < H) (HW : 0 < width p) :
  forall s x fb r c,
    length fb = Z.to_nat (width p * H) ->
    0 <= r < H -> 0 <= c < width p ->
    string_loop p y x s fb !! Z.to_nat (r * width p + c) =
    if (r =? y) && (x <=? c) && (c <? x + Z.of_nat (length (c_chars s)))
    then c_chars s !! Z.to_nat (c - x)
    else fb !! Z.to_nat (r * width p + c).
Proof.
  induction s as [|ch s IH]; intros x fb r c Hlen Hr Hc.
  - cbn [c_chars length string_loop].
    destruct (r =? y), (Z.leb_spec x c), (Z.ltb_spec c (x + Z.of_nat 0));
      cbn; try reflexivity; lia.
  - cbn [string_loop c_chars].
    destruct (Z.eqb_spec ch NUL) as [Hnul | Hnul]; cbn [negb andb length].
    + destruct (r =? y), (Z.leb_spec x c), (Z.ltb_spec c (x + Z.of_nat 0));
        cbn; try reflexivity; lia.
    + destruct (Z.ltb_spec x (width p)) as [Hx | Hx].
      * rewrite IH; [ | | assumption | assumption].
        2:{ destruct (0 <=? x); [unfold store; rewrite length_insert | ]; exact Hlen. }
        rewrite (store_lookup (width p) H) by (assumption || lia).
        destruct (Z.eqb_spec r y) as [-> | Hry]; cbn [andb]; [ | reflexivity].
        destruct (Z.eqb_spec c x) as [-> | Hcx].
        -- destruct (Z.leb_spec (x + 1) x), (Z.leb_spec x x); try lia; cbn [andb].
           destruct (Z.ltb_spec x (x + Z.of_nat (S (length (c_chars s))))); [ | lia].
           rewrite Z.sub_diag. reflexivity.
        -- destruct (Z.leb_spec (x + 1) c), (Z.leb_spec x c); try lia; cbn [andb];
             [ | reflexivity].
           destruct (Z.ltb_spec c (x + 1 + Z.of_nat (length (c_chars s)))),
                    (Z.ltb_spec c (x + Z.of_nat (S (length (c_chars s))))); try lia;
             [ | reflexivity].
           replace (Z.to_nat (c - x)) with (S (Z.to_nat (c - (x + 1)))) by lia.
           reflexivity.
      * destruct (r =? y), (Z.leb_spec x c); cbn [andb]; try reflexivity; lia.
Qed.

(** C7: with 1-based coordinates, [sevenseg_chr] leaves the frame buffer
    alone when the column or the row is outside the grid, and
    [sevenseg_string] does so when the row is outside; otherwise
    [sevenseg_string] changes exactly the cells of row [y] from column
    [x] on that the string reaches inside the grid, and no other cell.
    Both functions are total and have no error result. *)
Theorem out_of_range_coordinates_ignored p x y c s :
  wf_framebuf p ->
  ((x < 1 \/ width p < x \/ y < 1 \/ height p < y) -> fst (sevenseg_chr p x y c) = p)
  /\ ((y < 1 \/ height p < y) -> sevenseg_string p x y s = p)
  /\ (let p' := sevenseg_string p x y s in
      width p' = width p /\ height p' = height p
      /\ length (framebuf p') = length (framebuf p)
      /\ forall col row,
           1 <= col <= width p -> 1 <= row <= height p ->
           cell p' col row =
           if (row =? y) && (x <=? col) && (col <? x + Z.of_nat (length (c_chars s)))
           then c_chars s !! Z.to_nat (col - x)
           else cell p col row).
Proof.
  intros (HW & HH & Hlen).
  split; [ | split].
  - intros Hout. unfold sevenseg_chr. cbn [fst].
    destruct (Z.leb_spec 0 (x - 1)), (Z.leb_spec 0 (y - 1)),
             (Z.ltb_spec (x - 1) (width p)), (Z.ltb_spec (y - 1) (height p));
      cbn [andb]; try reflexivity; lia.
  - intros Hout. unfold sevenseg_string.
    destruct (Z.ltb_spec (y - 1) 0), (Z.leb_spec (height p) (y - 1));
      cbn [orb]; try reflexivity; lia.
  - unfold sevenseg_string.
    destruct (Z.ltb_spec (y - 1) 0) as [Hy0 | Hy0]; cbn [orb];
      [ | destruct (Z.leb_spec (height p) (y - 1)) as [Hy1 | Hy1] ].
    + repeat split. intros col row Hcol Hrow.
      destruct (Z.eqb_spec row y); [lia | reflexivity].
    + repeat split. intros col row Hcol Hrow.
      destruct (Z.eqb_spec row y); [lia | reflexivity].
    + cbn [width height framebuf set_framebuf].
      split; [reflexivity | split; [reflexivity | split; [apply string_loop_length | ]]].
      intros col row Hcol Hrow. unfold cell. cbn [width height framebuf set_framebuf].
      rewrite (string_loop_lookup p (y - 1) (height p)) by (assumption || lia).
      destruct (Z.eqb_spec (row - 1) (y - 1)), (Z.eqb_spec row y); try lia;
        cbn [andb]; [ | reflexivity].
      destruct (Z.leb_spec (x - 1) (col - 1)), (Z.leb_spec x col); try lia;
        cbn [andb]; [ | reflexivity].
      destruct (Z.ltb_spec (col - 1) (x - 1 + Z.of_nat (length (c_chars s)))),
               (Z.ltb_spec col (x + Z.of_nat (length (c_chars s)))); try lia;
        [ | reflexivity].
      replace (col - 1 - (x - 1)) with (col - x) by lia. reflexivity.
Qed.

(** On the blank 4x2 grid: a character right of the grid, a string
    below it, a string cut at the right border and one cut at the left
    border. *)
Lemma out_of_range_coordinates_ignored_witness :
  fst (sevenseg_chr example_grid 5 1 65) = example_grid
  /\ sevenseg_string example_grid 1 3 [65; 66] = example_grid
  /\ framebuf (sevenseg_string example_grid 3 2 [65; 66; 67; 68]) =
     [32; 32; 32; 32; 32; 32; 65; 66]
  /\ cell (sevenseg_string example_grid 0 1 [65; 66; 67; 68]) 1 1 = Some 66.
Proof.
  destruct (out_of_range_coordinates_ignored example_grid 5 1 65 [65; 66])
    as (Hchr & _); [repeat split; reflexivity | ].
  destruct (out_of_range_coordinates_ignored example_grid 1 3 65 [65; 66])
    as (_ & Hrow & _); [repeat split; reflexivity | ].
  destruct (out_of_range_coordinates_ignored example_grid 0 1 65 [65; 66; 67; 68])
    as (_ & _ & _ & _ & _ & Hcell); [repeat split; reflexivity | ].
  split; [apply Hchr; cbn; lia | ].
  split; [apply Hrow; cbn; lia | ].
  split; [reflexivity | ].
  exact (Hcell 1 1 ltac:(cbn; lia) ltac:(cbn; lia)).
Defined.

(** ** Flushing *)

Section FlushFacts.

Variable LCD_MAX_WIDTH : Z.
Variable SegMap : Type.
Variable map_seg7 : SegMap.
Variable map_to_seg7 : SegMap -> Z -> Z.

Lemma flush_loop_spec out : forall n i,
  (i + n <= length out)%nat ->
  flush_loop SegMap map_seg7 map_to_seg7 out i n =
  flat_map printf_02x_space (map (map_to_seg7 map_seg7) (firstn n (drop i out))).
Proof.
  induction n as [|n IH]; intros i Hi; [reflexivity | ].
  cbn [flush_loop].
  destruct (lookup_lt_is_Some_2 out i ltac:(lia)) as [c Hc].
  rewrite (drop_S out c i Hc). cbn [firstn map flat_map].
  rewrite IH by lia. rewrite nth_lookup, Hc. reflexivity.
Qed.

Lemma sevenseg_flush_output p :
  wf_framebuf p ->
  width p < LCD_MAX_WIDTH ->
  sevenseg_flush LCD_MAX_WIDTH SegMap map_seg7 map_to_seg7 p =
  Some (13 :: flat_map printf_02x_space
                  (map (map_to_seg7 map_seg7)
                       (firstn (Z.to_nat (width p)) (framebuf p)))).
Proof.
  intros (HW & HH & Hlen) Hmax.
  assert (Hrow : (Z.to_nat (width p) <= length (framebuf p))%nat).
  { rewrite Hlen. apply Z2Nat.inj_le; [lia | | ].
    - apply Z.mul_nonneg_nonneg; lia.
    - rewrite <- (Z.mul_1_r (width p)) at 1.
      apply Z.mul_le_mono_nonneg_l; lia. }
  unfold sevenseg_flush.
  destruct (Z.leb_spec 0 (width p)); [ | lia].
  destruct (Z.ltb_spec (width p) LCD_MAX_WIDTH); [ | lia].
  destruct (Z.leb_spec (width p) (Z.of_nat (length (framebuf p)))); [ | lia].
  cbn [andb app]. do 2 f_equal.
  rewrite flush_loop_spec.
  - rewrite drop_0, firstn_app.
    rewrite length_firstn, Nat.min_l by exact Hrow.
    rewrite Nat.sub_diag. cbn [firstn]. rewrite app_nil_r.
    rewrite firstn_firstn, Nat.min_id. reflexivity.
  - rewrite length_app, length_firstn, Nat.min_l by exact Hrow. cbn. lia.
Qed.

(** With a row as wide as [out] the store of the terminating NUL falls
    outside [out]. *)
Lemma sevenseg_flush_full_width p :
  width p = LCD_MAX_WIDTH ->
  sevenseg_flush LCD_MAX_WIDTH SegMap map_seg7 map_to_seg7 p = None.
Proof.
  intros Hw. unfold sevenseg_flush. rewrite Hw, Z.ltb_irrefl, andb_false_r.
  reflexivity.
Qed.

End FlushFacts.

(** X24: on a grid narrower than [LCD_MAX_WIDTH], where the first row
    and its terminating NUL fit the array [out], [sevenseg_flush] prints
    a carriage return and then, for each of the [width] characters of
    the first row in order, the pattern that [map_to_seg7] gives for it;
    frame buffers that agree on the first row give the same output,
    whatever the other rows hold. *)
Theorem flush_reads_first_row LCD_MAX_WIDTH (SegMap : Type) (map_seg7 : SegMap)
    (map_to_seg7 : SegMap -> Z -> Z) p :
  wf_framebuf p ->
  width p < LCD_MAX_WIDTH ->
  let flush := sevenseg_flush LCD_MAX_WIDTH SegMap map_seg7 map_to_seg7 in
  let row1 := firstn (Z.to_nat (width p)) (framebuf p) in
  let glyphs := map (map_to_seg7 map_seg7) row1 in
  flush p = Some (13 :: flat_map printf_02x_space glyphs)
  /\ length glyphs = Z.to_nat (width p)
  /\ (forall col, 1 <= col <= width p ->
        glyphs !! Z.to_nat (col - 1) = map_to_seg7 map_seg7 <$> cell p col 1)
  /\ (forall fb',
        length fb' = length (framebuf p) ->
        firstn (Z.to_nat (width p)) fb' = row1 ->
        flush (set_framebuf p fb') = flush p).
Proof.
  intros Hwf Hmax flush row1 glyphs.
  pose proof Hwf as (HW & HH & Hlen).
  assert (Hrow : (Z.to_nat (width p) <= length (framebuf p))%nat).
  { rewrite Hlen. apply Z2Nat.inj_le; [lia | | ].
    - apply Z.mul_nonneg_nonneg; lia.
    - rewrite <- (Z.mul_1_r (width p)) at 1.
      apply Z.mul_le_mono_nonneg_l; lia. }
  split; [apply sevenseg_flush_output; assumption | ].
  split; [ | split].
  - unfold glyphs, row1. rewrite length_map, length_firstn. lia.
  - intros col Hcol. unfold glyphs, row1, cell.
    rewrite list_lookup_fmap.
    replace ((1 - 1) * width p + (col - 1)) with (col - 1) by lia.
    rewrite lookup_take_lt by lia. reflexivity.
  - intros fb' Hlen' Hsame. unfold flush.
    rewrite !sevenseg_flush_output; try assumption.
    + cbn [framebuf set_framebuf width]. rewrite Hsame. reflexivity.
    + unfold wf_framebuf. cbn [framebuf set_framebuf width height].
      rewrite Hlen'. exact Hwf.
Qed.

(** Two 2x2 frame buffers with the same first row and different second
    rows print the same bytes. *)
Lemma flush_reads_first_row_witness :
  sevenseg_flush 256 (list Z) example_map example_map_to_seg7
    (mkPrivateData 2 2 [49; 50; 56; 56] SEVENSEG_CT_I2C) =
  Some [13; 48; 54; 32; 53; 98; 32]
  /\ sevenseg_flush 256 (list Z) example_map example_map_to_seg7
       (mkPrivateData 2 2 [49; 50; 51; 52] SEVENSEG_CT_I2C) =
     Some [13; 48; 54; 32; 53; 98; 32].
Proof.
  destruct (flush_reads_first_row 256 (list Z) example_map example_map_to_seg7
              (mkPrivateData 2 2 [49; 50; 56; 56] SEVENSEG_CT_I2C)
              ltac:(repeat split; reflexivity) ltac:(reflexivity))
    as (Hout & _ & _ & Hrows).
  split; [exact Hout | ].
  exact (eq_trans (Hrows [49; 50; 51; 52] eq_refl eq_refl) Hout).
Defined.

(** C10, not met by the code: with a row as wide as the array [out] or
    wider, the store [out[p->width] = 0] falls outside [out] and
    [sevenseg_flush] has no defined result, so it cannot be said to
    print [width] patterns.  [sevenseg_init] accepts such a width: it
    refuses only a width above [LCD_MAX_WIDTH]. *)
Theorem flush_overflows_full_width LCD_MAX_WIDTH (SegMap : Type) (map_seg7 : SegMap)
    (map_to_seg7 : SegMap -> Z -> Z) p :
  LCD_MAX_WIDTH <= width p ->
  sevenseg_flush LCD_MAX_WIDTH SegMap map_seg7 map_to_seg7 p = None.
Proof.
  intros Hw. unfold sevenseg_flush.
  destruct (Z.ltb_spec (width p) LCD_MAX_WIDTH) as [Hlt | _]; [lia | ].
  rewrite andb_false_r. reflexivity.
Qed.

(** The size 256x1 passes [sevenseg_init] when the maximum is 256, and
    the flush of the grid it leaves has no defined result. *)
Lemma flush_overflows_full_width_witness :
  sevenseg_init 256 256 true false
    (mkDriver "sevenseg" true 0 0 0 (Some "256x1"%string) None true) =
  (0, Some (mkPrivateData 256 1 (memset SPACE 256) SEVENSEG_CT_I2C),
   [Log RPT_INFO "HD44780: using ConnectionType: %s" ["i2c"%string];
    Log RPT_INFO "HD44780: selecting Model: %s" [];
    Log RPT_DEBUG "%s: init() done" ["sevenseg"%string]])
  /\ sevenseg_flush 256 (list Z) example_map example_map_to_seg7
       (mkPrivateData 256 1 (memset SPACE 256) SEVENSEG_CT_I2C) = None.
Proof.
  split; [vm_compute; reflexivity | ].
  apply (flush_overflows_full_width 256 (list Z) example_map example_map_to_seg7).
  cbn. lia.
Defined.

(** ** Initialisation *)

(** C8, as amended: when the driver reads its own [Size] setting (the
    primary driver gives no positive size) and the setting does not scan as two
    numbers around an x, or a number is not positive or above the
    maximum, [sevenseg_init] reports a warning, takes 20x4 and goes on
    with the connection type and the frame buffer: with a known
    connection type and memory for the frame buffer it returns 0 with a
    blank 20x4 frame buffer. *)
Theorem init_size_fallback LCD_MAX_WIDTH LCD_MAX_HEIGHT HAVE_I2C HAVE_SPI drvthis :
  calloc_ok drvthis = true ->
  store_private_ptr drvthis = 0 ->
  (request_display_width drvthis <= 0 \/ request_display_height drvthis <= 0) ->
  let buf := strncpy_buf (default SEVENSEG_DEFAULT_SIZE (config_Size drvthis)) in
  let n := fst (fst (sscanf_dxd buf 0 0)) in
  let w := snd (fst (sscanf_dxd buf 0 0)) in
  let h := snd (sscanf_dxd buf 0 0) in
  (n <> 2 \/ w <= 0 \/ LCD_MAX_WIDTH < w \/ h <= 0 \/ LCD_MAX_HEIGHT < h) ->
  let warning := Log RPT_WARNING "%s: cannot read Size: %s; using default %s"
                     [name drvthis; buf; SEVENSEG_DEFAULT_SIZE] in
  let p0 := mkPrivateData 0 0 [] SEVENSEG_CT_UNKNOWN in
  let p1 := mkPrivateData 20 4 [] SEVENSEG_CT_UNKNOWN in
  let init := sevenseg_init LCD_MAX_WIDTH LCD_MAX_HEIGHT HAVE_I2C HAVE_SPI in
  let rest := init_rest HAVE_I2C HAVE_SPI drvthis p1 in
  init_size LCD_MAX_WIDTH LCD_MAX_HEIGHT drvthis p0 = (p1, [warning])
  /\ init drvthis = (fst (fst rest), Some (snd (fst rest)), warning :: snd rest)
  /\ (forall cname ct ift fn,
        find_connection (default "i2c"%string (config_ConnectionType drvthis))
                        (connectionMapping HAVE_I2C HAVE_SPI) =
          Some (mkConnectionMapping (Some cname) ct ift fn) ->
        malloc_ok drvthis = true ->
        fst (fst (init drvthis)) = 0
        /\ snd (fst (init drvthis)) = Some (mkPrivateData 20 4 (memset SPACE 80) ct)).
Proof.
  intros Hcalloc Hstore Hprimary buf n w h Hbad warning p0 p1 init rest.
  assert (Hsize : init_size LCD_MAX_WIDTH LCD_MAX_HEIGHT drvthis p0 = (p1, [warning])).
  { unfold init_size.
    replace ((0 <? request_display_width drvthis) && (0 <? request_display_height drvthis))
      with false
      by (destruct (Z.ltb_spec 0 (request_display_width drvthis)),
                   (Z.ltb_spec 0 (request_display_height drvthis)); cbn; try reflexivity; lia).
    cbn [width height p0]. fold buf.
    subst n w h. destruct (sscanf_dxd buf 0 0) as [[n w] h]. cbn [fst snd] in Hbad.
    cbn [width height set_size].
    replace (negb (n =? 2) || (w <=? 0) || (LCD_MAX_WIDTH <? w) || (h <=? 0)
             || (LCD_MAX_HEIGHT <? h)) with true.
    - reflexivity.
    - destruct (Z.eqb_spec n 2), (Z.leb_spec w 0), (Z.ltb_spec LCD_MAX_WIDTH w),
               (Z.leb_spec h 0), (Z.ltb_spec LCD_MAX_HEIGHT h); cbn; try reflexivity; lia. }
  assert (Hinit : init drvthis = (fst (fst rest), Some (snd (fst rest)), warning :: snd rest)).
  { unfold init, sevenseg_init. rewrite Hcalloc, Hstore. cbn [negb nonzero Z.eqb].
    fold p0. rewrite Hsize. fold rest. destruct rest as [[rc p] log]. reflexivity. }
  split; [exact Hsize | split; [exact Hinit | ]].
  intros cname ct ift fn Hfind Hmalloc. rewrite Hinit.
  subst rest. unfold init_rest. rewrite Hfind, Hmalloc. cbn. split; reflexivity.
Qed.

(** A size setting that does not scan. *)
Lemma init_size_fallback_witness :
  sevenseg_init 256 256 true false
    (mkDriver "sevenseg" true 0 0 0 (Some "20 by 4"%string) None true) =
  (0, Some (mkPrivateData 20 4 (memset SPACE 80) SEVENSEG_CT_I2C),
   [Log RPT_WARNING "%s: cannot read Size: %s; using default %s"
        ["sevenseg"%string; "20 by 4"%string; "20x4"%string];
    Log RPT_INFO "HD44780: using ConnectionType: %s" ["i2c"%string];
    Log RPT_INFO "HD44780: selecting Model: %s" [];
    Log RPT_DEBUG "%s: init() done" ["sevenseg"%string]]).
Proof.
  destruct (init_size_fallback 256 256 true false
              (mkDriver "sevenseg" true 0 0 0 (Some "20 by 4"%string) None true)
              eq_refl eq_refl ltac:(left; cbn; lia) ltac:(left; vm_compute; discriminate))
    as (_ & Hinit & _).
  exact Hinit.
Defined.

(** C8, as stated, fails: the primary driver reports 16x2 and the
    [Size] setting does not scan; nothing is reported about the setting
    and the grid is 16x2, not 20x4. *)
Lemma size_fallback_bypassed :
  fst (fst (sscanf_dxd (strncpy_buf "nonsense") 0 0)) <> 2
  /\ sevenseg_init 256 256 true false
       (mkDriver "sevenseg" true 0 16 2 (Some "nonsense"%string) None true) =
     (0, Some (mkPrivateData 16 2 (memset SPACE 32) SEVENSEG_CT_I2C),
      [Log RPT_INFO "HD44780: using ConnectionType: %s" ["i2c"%string];
       Log RPT_INFO "HD44780: selecting Model: %s" [];
       Log RPT_DEBUG "%s: init() done" ["sevenseg"%string]]).
Proof.
  split; [vm_compute; discriminate | vm_compute; reflexivity].
Qed.

(** A number beyond the range of [int] is stored by its low 32 bits:
    this setting scans as 16x4 and is taken without a warning. *)
Lemma sscanf_dxd_low_bits :
  sscanf_dxd "4294967312x4" 0 0 = (2, 16, 4)
  /\ init_size 256 256 (mkDriver "sevenseg" true 0 0 0 (Some "4294967312x4"%string) None true)
       (mkPrivateData 0 0 [] SEVENSEG_CT_UNKNOWN) =
     (mkPrivateData 16 4 [] SEVENSEG_CT_UNKNOWN, []).
Proof.
  split; vm_compute; reflexivity.
Qed.

(** ** More on the flip transform *)

(** X9: on bytes [flip_seg7] goes through bitwise or and bitwise and:
    flipping a union or an intersection of segment patterns is the same
    as flipping the patterns first. *)
Theorem flip_seg7_lor_land a b :
  0 <= a < 256 ->
  0 <= b < 256 ->
  flip_seg7 (Z.lor a b) = Z.lor (flip_seg7 a) (flip_seg7 b)
  /\ flip_seg7 (Z.land a b) = Z.land (flip_seg7 a) (flip_seg7 b).
Proof.
  intros Ha Hb.
  pose (Q := fun a b =>
    (flip_seg7 (Z.lor a b) =? Z.lor (flip_seg7 a) (flip_seg7 b)) &&
    (flip_seg7 (Z.land a b) =? Z.land (flip_seg7 a) (flip_seg7 b))).
  pose (P := fun a => forallb (Q a) (map Z.of_nat (seq 0 256))).
  assert (HP : P a = true).
  { apply (forall_below P 256); [vm_compute; reflexivity | exact Ha]. }
  assert (HQ : Q a b = true) by (apply (forall_below (Q a) 256); assumption).
  unfold Q in HQ. apply andb_prop in HQ. destruct HQ as [H1 H2].
  split; apply Z.eqb_eq; assumption.
Qed.

(** Segments B, C of the digit 1 and segment G of the minus sign. *)
Lemma flip_seg7_lor_land_witness :
  flip_seg7 (Z.lor 0x06 0x40) = Z.lor (flip_seg7 0x06) (flip_seg7 0x40)
  /\ flip_seg7 (Z.land 0x06 0x40) = Z.land (flip_seg7 0x06) (flip_seg7 0x40).
Proof.
  apply (flip_seg7_lor_land 0x06 0x40); lia.
Defined.

(** X10: on seven-bit patterns [flip_seg7] keeps the number of lit
    segments and sends different patterns to different patterns. *)
Theorem flip_seg7_permutes a b :
  0 <= a < 128 ->
  0 <= b < 128 ->
  segments_lit (flip_seg7 a) = segments_lit a
  /\ (flip_seg7 a = flip_seg7 b -> a = b).
Proof.
  intros Ha Hb. split.
  - pose (P := fun v => segments_lit (flip_seg7 v) =? segments_lit v).
    assert (HP : P a = true).
    { apply (forall_below P 128); [vm_compute; reflexivity | exact Ha]. }
    apply Z.eqb_eq. exact HP.
  - intros Heq.
    destruct (flip_seg7_bytes a ltac:(lia)) as (_ & _ & _ & Hia).
    destruct (flip_seg7_bytes b ltac:(lia)) as (_ & _ & _ & Hib).
    rewrite land_7f_small in Hia, Hib by assumption.
    rewrite <- Hia, <- Hib, Heq. reflexivity.
Qed.

(** The digit 7 (segments A, B, C) flips to D, E, F: three segments. *)
Lemma flip_seg7_permutes_witness :
  segments_lit (flip_seg7 0x07) = 3 /\ (flip_seg7 0x07 = flip_seg7 0x38 -> 0x07 = 0x38).
Proof.
  exact (flip_seg7_permutes 0x07 0x38 ltac:(lia) ltac:(lia)).
Defined.

(** ** More on the frame buffer *)





(** X12: [sevenseg_chr] with coordinates inside the grid stores the
    character in that cell and in no other, and keeps the size of the
    frame buffer; inside or outside the grid it prints the character
    and a newline on stdout. *)
Theorem chr_sets_one_cell p x y c :
  wf_framebuf p ->
  1 <= x <= width p ->
  1 <= y <= height p ->
  let p' := fst (sevenseg_chr p x y c) in
  wf_framebuf p'
  /\ cell p' x y = Some c
  /\ (forall col row, 1 <= col <= width p -> 1 <= row <= height p ->
        (col <> x \/ row <> y) -> cell p' col row = cell p col row)
  /\ (forall x' y', snd (sevenseg_chr p x' y' c) = [u8 c; 10]).
Proof.
  intros (HW & HH & Hlen) Hx Hy p'.
  assert (Hp' : p' = set_framebuf p (store (framebuf p) ((y - 1) * width p + (x - 1)) c)).
  { unfold p', sevenseg_chr. cbn [fst].
    destruct (Z.leb_spec 0 (x - 1)), (Z.leb_spec 0 (y - 1)),
             (Z.ltb_spec (x - 1) (width p)), (Z.ltb_spec (y - 1) (height p));
      cbn [andb]; try lia. reflexivity. }
  assert (Hcell : forall col row, 1 <= col <= width p -> 1 <= row <= height p ->
            cell p' col row =
            if (row - 1 =? y - 1) && (col - 1 =? x - 1) then Some c else cell p col row).
  { intros col row Hcol Hrow. rewrite Hp'. unfold cell.
    cbn [width height framebuf set_framebuf].
    pose proof (store_lookup (width p) (height p) (framebuf p) (y - 1) (x - 1)
                  (row - 1) (col - 1) c Hlen ltac:(lia) ltac:(lia) ltac:(lia) ltac:(lia))
      as Hs.
    destruct (Z.leb_spec 0 (x - 1)); [exact Hs | lia]. }
  split; [ | split; [ | split]].
  - rewrite Hp'. unfold wf_framebuf, store. cbn [width height framebuf set_framebuf].
    rewrite length_insert. auto.
  - rewrite (Hcell x y Hx Hy), !Z.eqb_refl. reflexivity.
  - intros col row Hcol Hrow Hne. rewrite (Hcell col row Hcol Hrow).
    destruct (Z.eqb_spec (row - 1) (y - 1)), (Z.eqb_spec (col - 1) (x - 1));
      cbn [andb]; try reflexivity; lia.
  - reflexivity.
Qed.

(** The letter A in the last cell of the example grid. *)
Lemma chr_sets_one_cell_witness :
  framebuf (fst (sevenseg_chr example_grid 4 2 65)) = [32; 32; 32; 32; 32; 32; 32; 65]
  /\ cell (fst (sevenseg_chr example_grid 4 2 65)) 4 2 = Some 65
  /\ snd (sevenseg_chr example_grid 9 9 65) = [65; 10].
Proof.
  destruct (chr_sets_one_cell example_grid 4 2 65 ltac:(repeat split; reflexivity)
              ltac:(cbn; lia) ltac:(cbn; lia)) as (_ & Hc & _ & Hout).
  split; [reflexivity | split; [exact Hc | exact (Hout 9 9)]].
Defined.

(** X13: for a character other than NUL, [sevenseg_string] with the
    string of that one character leaves the same private data as
    [sevenseg_chr], inside and outside the grid. *)
Theorem string_of_one_char p x y c :
  c <> NUL ->
  sevenseg_string p x y [c] = fst (sevenseg_chr p x y c).
Proof.
  intros Hc. unfold sevenseg_string, sevenseg_chr. cbn [fst string_loop].
  destruct (Z.eqb_spec c NUL) as [|_]; [contradiction | ]. cbn [negb andb].
  destruct p as [W H fb ct]. cbn [width height framebuf set_framebuf].
  destruct (Z.ltb_spec (y - 1) 0), (Z.leb_spec H (y - 1)), (Z.leb_spec 0 (y - 1)),
           (Z.ltb_spec (y - 1) H); try lia; cbn [orb andb];
    rewrite ?andb_false_r; try reflexivity.
  destruct (Z.ltb_spec (x - 1) W), (Z.leb_spec 0 (x - 1)); cbn [andb]; reflexivity.
Qed.

Lemma string_of_one_char_witness :
  sevenseg_string example_grid 2 1 [65] = fst (sevenseg_chr example_grid 2 1 65).
Proof.
  apply (string_of_one_char example_grid 2 1 65). discriminate.
Defined.

Lemma string_loop_right p y x s fb :
  width p <= x -> string_loop p y x s fb = fb.
Proof.
  intros Hx. destruct s as [|c s]; [reflexivity | ]. cbn [string_loop].
  destruct (Z.ltb_spec x (width p)); [lia | ]. rewrite andb_false_r. reflexivity.
Qed.

Lemma string_loop_app p y s1 s2 : forall x fb,
  Forall (fun c => c <> NUL) s1 ->
  string_loop p y x (s1 ++ s2) fb =
  string_loop p y (x + Z.of_nat (length s1)) s2 (string_loop p y x s1 fb).
Proof.
  induction s1 as [|c s1 IH]; intros x fb Hnz.
  - cbn. rewrite Z.add_0_r. reflexivity.
  - inversion Hnz as [|? ? Hc Hrest]; subst.
    cbn [app string_loop length].
    destruct (Z.eqb_spec c NUL) as [|_]; [contradiction | ]. cbn [negb andb].
    destruct (Z.ltb_spec x (width p)) as [Hx | Hx].
    + rewrite IH by assumption. f_equal. lia.
    + rewrite string_loop_right by lia. reflexivity.
Qed.

Lemma string_loop_ext p q y s : forall x fb,
  width p = width q -> string_loop p y x s fb = string_loop q y x s fb.
Proof.
  induction s as [|c s IH]; intros x fb Hw; [reflexivity | ].
  cbn [string_loop]. rewrite Hw, IH by exact Hw. reflexivity.
Qed.

(** X14: writing a string without NUL at column [x] and a second string
    right after its end gives the same private data as writing the two
    strings joined at column [x]. *)
Theorem string_append p x y s1 s2 :
  Forall (fun c => c <> NUL) s1 ->
  sevenseg_string (sevenseg_string p x y s1) (x + Z.of_nat (length s1)) y s2 =
  sevenseg_string p x y (s1 ++ s2).
Proof.
  intros Hnz. unfold sevenseg_string.
  destruct ((y - 1 <? 0) || (height p <=? y - 1)) eqn:Hy.
  - rewrite Hy. reflexivity.
  - cbn [width height framebuf set_framebuf]. rewrite Hy.
    rewrite string_loop_app by assumption.
    rewrite (string_loop_ext (set_framebuf p (string_loop p (y - 1) (x - 1) s1 (framebuf p))) p)
      by reflexivity.
    replace (x + Z.of_nat (length s1) - 1) with (x - 1 + Z.of_nat (length s1)) by lia.
    reflexivity.
Qed.

(** AB then CD, cut at the right border of the example grid. *)
Lemma string_append_witness :
  sevenseg_string (sevenseg_string example_grid 2 1 [65; 66]) 4 1 [67; 68] =
  sevenseg_string example_grid 2 1 [65; 66; 67; 68].
Proof.
  apply (string_append example_grid 2 1 [65; 66] [67; 68]).
  repeat constructor; discriminate.
Defined.

Lemma string_loop_nul p y s1 s2 : forall x fb,
  string_loop p y x (s1 ++ NUL :: s2) fb = string_loop p y x s1 fb.
Proof.
  induction s1 as [|c s1 IH]; intros x fb; [reflexivity | ].
  cbn [app string_loop].
  destruct (negb (c =? NUL) && (x <? width p)); [apply IH | reflexivity].
Qed.

(** X23: [sevenseg_string] stops at the first NUL: the characters after
    it are never written, and a string that is empty or starts with NUL
    changes nothing. *)
Theorem string_stops_at_nul p x y s1 s2 :
  sevenseg_string p x y (s1 ++ NUL :: s2) = sevenseg_string p x y s1
  /\ sevenseg_string p x y (NUL :: s2) = p
  /\ sevenseg_string p x y [] = p.
Proof.
  assert (Hnil : sevenseg_string p x y [] = p).
  { unfold sevenseg_string. cbn [string_loop].
    destruct ((y - 1 <? 0) || (height p <=? y - 1)); [reflexivity | ].
    destruct p; reflexivity. }
  assert (Hcut : forall s, sevenseg_string p x y (s ++ NUL :: s2) = sevenseg_string p x y s).
  { intros s. unfold sevenseg_string. rewrite string_loop_nul. reflexivity. }
  split; [apply Hcut | split; [ | exact Hnil]].
  rewrite <- Hnil at 2. exact (Hcut []).
Qed.

(** ** More on flushing *)

Lemma string_loop_first_row p y H x s fb :
  0 < width p -> 1 <= y < H ->
  length fb = Z.to_nat (width p * H) ->
  take (Z.to_nat (width p)) (string_loop p y x s fb) = take (Z.to_nat (width p)) fb.
Proof.
  intros HW Hy Hlen. apply list_eq. intros i.
  destruct (decide (i < Z.to_nat (width p))%nat) as [Hi | Hi].
  - rewrite !lookup_take_lt by exact Hi.
    pose proof (string_loop_lookup p y H ltac:(lia) HW s x fb 0 (Z.of_nat i) Hlen
                  ltac:(lia) ltac:(lia)) as Hs.
    replace (Z.to_nat (0 * width p + Z.of_nat i)) with i in Hs by lia.
    rewrite Hs. destruct (Z.eqb_spec 0 y); [lia | reflexivity].
  - rewrite !lookup_take_ge by lia. reflexivity.
Qed.

Lemma first_row_fits p :
  wf_framebuf p -> (Z.to_nat (width p) <= length (framebuf p))%nat.
Proof.
  intros (HW & HH & Hlen). rewrite Hlen. apply Z2Nat.inj_le; [lia | | ].
  - apply Z.mul_nonneg_nonneg; lia.
  - rewrite <- (Z.mul_1_r (width p)) at 1. apply Z.mul_le_mono_nonneg_l; lia.
Qed.

Lemma printf_02x_space_byte v :
  0 <= v < 256 -> length (printf_02x_space v) = 3%nat.
Proof.
  intros Hv.
  pose (P := fun v => (length (printf_02x_space v) =? 3)%nat).
  assert (HP : P v = true).
  { apply (forall_below P 256); [vm_compute; reflexivity | exact Hv]. }
  apply Nat.eqb_eq. exact HP.
Qed.


Section MoreFlushFacts.

Variable LCD_MAX_WIDTH : Z.
Variable SegMap : Type.
Variable map_seg7 : SegMap.
Variable map_to_seg7 : SegMap -> Z -> Z.

Let flush := sevenseg_flush LCD_MAX_WIDTH SegMap map_seg7 map_to_seg7.

Lemma flush_string_lower_row p x y s :
  wf_framebuf p -> width p < LCD_MAX_WIDTH -> 2 <= y ->
  flush (sevenseg_string p x y s) = flush p.
Proof.
  intros Hwf Hmax Hy. pose proof Hwf as (HW & HH & Hlen).
  unfold sevenseg_string.
  destruct (Z.ltb_spec (y - 1) 0); [lia | ].
  destruct (Z.leb_spec (height p) (y - 1)); cbn [orb]; [reflexivity | ].
  unfold flush. rewrite !sevenseg_flush_output; try assumption.
  - cbn [width framebuf set_framebuf].
    rewrite (string_loop_first_row p (y - 1) (height p)) by (assumption || lia).
    reflexivity.
  - unfold wf_framebuf. cbn [width height framebuf set_framebuf].
    rewrite string_loop_length. exact Hwf.
Qed.

Lemma flush_chr_lower_row p x y c :
  wf_framebuf p -> width p < LCD_MAX_WIDTH -> 2 <= y ->
  flush (fst (sevenseg_chr p x y c)) = flush p.
Proof.
  intros Hwf Hmax Hy. pose proof Hwf as (HW & HH & Hlen).
  unfold sevenseg_chr. cbn [fst].
  destruct ((0 <=? x - 1) && (0 <=? y - 1) && (x - 1 <? width p) && (y - 1 <? height p))
    eqn:Hin; [ | reflexivity].
  apply andb_prop in Hin. destruct Hin as [Hin _].
  apply andb_prop in Hin. destruct Hin as [Hin _].
  apply andb_prop in Hin. destruct Hin as [Hx0 _]. apply Z.leb_le in Hx0.
  unfold flush. rewrite !sevenseg_flush_output; try assumption.
  - cbn [width framebuf set_framebuf]. unfold store.
    rewrite take_insert_ge; [reflexivity | ].
    assert (1 * width p <= (y - 1) * width p) by (apply Z.mul_le_mono_nonneg_r; lia).
    lia.
  - unfold wf_framebuf, store. cbn [width height framebuf set_framebuf].
    rewrite length_insert. exact Hwf.
Qed.

End MoreFlushFacts.

(** X15: what [sevenseg_string] and [sevenseg_chr] do in the second
    row or below never shows in the output of [sevenseg_flush]. *)
Theorem flush_ignores_lower_rows LCD_MAX_WIDTH (SegMap : Type) (map_seg7 : SegMap)
    (map_to_seg7 : SegMap -> Z -> Z) p x y s c :
  wf_framebuf p ->
  width p < LCD_MAX_WIDTH ->
  2 <= y ->
  let flush := sevenseg_flush LCD_MAX_WIDTH SegMap map_seg7 map_to_seg7 in
  flush (sevenseg_string p x y s) = flush p
  /\ flush (fst (sevenseg_chr p x y c)) = flush p.
Proof.
  intros Hwf Hmax Hy flush. split.
  - apply flush_string_lower_row; assumption.
  - apply flush_chr_lower_row; assumption.
Qed.

(** Digits written into the second row of a blank grid do not show. *)
Lemma flush_ignores_lower_rows_witness :
  sevenseg_flush 256 (list Z) example_map example_map_to_seg7
    (sevenseg_string example_grid 1 2 [49; 50; 51; 52]) =
  sevenseg_flush 256 (list Z) example_map example_map_to_seg7 example_grid.
Proof.
  destruct (flush_ignores_lower_rows 256 (list Z) example_map example_map_to_seg7
              example_grid 1 2 [49; 50; 51; 52] 0
              ltac:(repeat split; reflexivity) ltac:(reflexivity) ltac:(lia))
    as (Hs & _).
  exact Hs.
Defined.

(** X16: on a grid narrower than [LCD_MAX_WIDTH], after [sevenseg_chr]
    has put a character into column [x] of the first row,
    [sevenseg_flush] prints the first row as it was with the pattern of
    that character at position [x]. *)
Theorem chr_then_flush LCD_MAX_WIDTH (SegMap : Type) (map_seg7 : SegMap)
    (map_to_seg7 : SegMap -> Z -> Z) p x c :
  wf_framebuf p ->
  width p < LCD_MAX_WIDTH ->
  1 <= x <= width p ->
  let row1 := take (Z.to_nat (width p)) (framebuf p) in
  sevenseg_flush LCD_MAX_WIDTH SegMap map_seg7 map_to_seg7 (fst (sevenseg_chr p x 1 c)) =
  Some (13 :: flat_map printf_02x_space
                  (map (map_to_seg7 map_seg7) (<[Z.to_nat (x - 1) := c]> row1)))
  /\ map (map_to_seg7 map_seg7) (<[Z.to_nat (x - 1) := c]> row1) !! Z.to_nat (x - 1) =
     Some (map_to_seg7 map_seg7 c).
Proof.
  intros Hwf Hmax Hx row1. pose proof Hwf as (HW & HH & Hlen).
  pose proof (first_row_fits p Hwf) as Hfit.
  split.
  - unfold sevenseg_chr. cbn [fst].
    destruct (Z.leb_spec 0 (x - 1)), (Z.leb_spec 0 (1 - 1)),
             (Z.ltb_spec (x - 1) (width p)), (Z.ltb_spec (1 - 1) (height p));
      cbn [andb]; try lia.
    rewrite sevenseg_flush_output; try assumption.
    + cbn [width framebuf set_framebuf]. unfold store.
      replace ((1 - 1) * width p + (x - 1)) with (x - 1) by lia.
      rewrite take_insert_lt by lia. reflexivity.
    + unfold wf_framebuf, store. cbn [width height framebuf set_framebuf].
      rewrite length_insert. exact Hwf.
  - change (map (map_to_seg7 map_seg7)) with (fmap (M := list) (map_to_seg7 map_seg7)).
    rewrite list_lookup_fmap, list_lookup_insert_eq; [reflexivity | ].
    unfold row1. rewrite length_take. lia.
Qed.

(** The digit 2 at (1,1) of the blank example grid, then a flush. *)
Lemma chr_then_flush_witness :
  sevenseg_flush 256 (list Z) example_map example_map_to_seg7
    (fst (sevenseg_chr example_grid 1 1 50)) =
  Some [13; 53; 98; 32; 48; 48; 32; 48; 48; 32; 48; 48; 32].
Proof.
  destruct (chr_then_flush 256 (list Z) example_map example_map_to_seg7
              example_grid 1 50 ltac:(repeat split; reflexivity) ltac:(reflexivity)
              ltac:(cbn; lia)) as (Hf & _).
  exact Hf.
Defined.



(** X18: on a grid narrower than [LCD_MAX_WIDTH], when [map_to_seg7]
    gives a byte for every character of the first row, [sevenseg_flush]
    prints one byte and three more for each column: two hexadecimal
    digits and a space. *)
Theorem flush_output_length LCD_MAX_WIDTH (SegMap : Type) (map_seg7 : SegMap)
    (map_to_seg7 : SegMap -> Z -> Z) p :
  wf_framebuf p ->
  width p < LCD_MAX_WIDTH ->
  Forall (fun c => 0 <= map_to_seg7 map_seg7 c < 256)
         (take (Z.to_nat (width p)) (framebuf p)) ->
  exists out,
    sevenseg_flush LCD_MAX_WIDTH SegMap map_seg7 map_to_seg7 p = Some out
    /\ Z.of_nat (length out) = 1 + 3 * width p.
Proof.
  intros Hwf Hmax Hbytes. pose proof Hwf as (HW & HH & Hlen).
  pose proof (first_row_fits p Hwf) as Hfit.
  eexists. split; [apply sevenseg_flush_output; assumption | ].
  cbn [length].
  assert (Hl : forall l : list Z,
            Forall (fun c => 0 <= map_to_seg7 map_seg7 c < 256) l ->
            length (flat_map printf_02x_space (map (map_to_seg7 map_seg7) l)) =
            (3 * length l)%nat).
  { induction 1 as [|c l Hc _ IH]; [reflexivity | ].
    cbn [map flat_map]. rewrite length_app, IH, printf_02x_space_byte by exact Hc.
    cbn [length]. lia. }
  rewrite (Hl _ Hbytes), length_take. lia.
Qed.

Lemma flush_output_length_witness :
  exists out,
    sevenseg_flush 256 (list Z) example_map example_map_to_seg7 example_grid = Some out
    /\ Z.of_nat (length out) = 13.
Proof.
  exact (flush_output_length 256 (list Z) example_map example_map_to_seg7 example_grid
           ltac:(repeat split; reflexivity) ltac:(reflexivity)
           ltac:(repeat constructor; discriminate)).
Defined.

(** ** More on initialisation *)

Section MoreInitFacts.

Variable LCD_MAX_WIDTH : Z.
Variable LCD_MAX_HEIGHT : Z.
Variable HAVE_I2C : bool.
Variable HAVE_SPI : bool.

Let init := sevenseg_init LCD_MAX_WIDTH LCD_MAX_HEIGHT HAVE_I2C HAVE_SPI.
Let blank := mkPrivateData 0 0 [] SEVENSEG_CT_UNKNOWN.

(** Is the connection type [s] in the table this build has? *)
Let known (s : string) : bool :=
  (HAVE_I2C && strcasecmp_eq s "i2c") || (HAVE_SPI && strcasecmp_eq s "spi").

Lemma init_steps drvthis :
  calloc_ok drvthis = true ->
  store_private_ptr drvthis = 0 ->
  let size := init_size LCD_MAX_WIDTH LCD_MAX_HEIGHT drvthis blank in
  let rest := init_rest HAVE_I2C HAVE_SPI drvthis (fst size) in
  init drvthis = (fst (fst rest), Some (snd (fst rest)), snd size ++ snd rest).
Proof.
  intros Hc Hs size rest. unfold init, sevenseg_init.
  rewrite Hc, Hs. cbn [negb nonzero Z.eqb]. fold blank. fold size.
  destruct size as [p1 log1]. cbn [fst snd] in *. fold rest.
  destruct rest as [[rc p2] log2]. reflexivity.
Qed.

Lemma init_size_keeps drvthis p :
  let p1 := fst (init_size LCD_MAX_WIDTH LCD_MAX_HEIGHT drvthis p) in
  0 < width p1 /\ 0 < height p1
  /\ framebuf p1 = framebuf p /\ connectiontype p1 = connectiontype p.
Proof.
  unfold init_size.
  destruct (Z.ltb_spec 0 (request_display_width drvthis)),
           (Z.ltb_spec 0 (request_display_height drvthis)); cbn [andb fst];
    try (cbn; repeat split; assumption).
  all: destruct (sscanf_dxd _ (width p) (height p)) as [[n w] h];
    cbn [width height set_size];
    destruct (Z.eqb_spec n 2), (Z.leb_spec w 0), (Z.ltb_spec LCD_MAX_WIDTH w),
             (Z.leb_spec h 0), (Z.ltb_spec LCD_MAX_HEIGHT h);
    cbn [negb orb fst]; cbn; repeat split; lia.
Qed.

Lemma init_rest_cases drvthis p :
  let s := default "i2c"%string (config_ConnectionType drvthis) in
  let rest := init_rest HAVE_I2C HAVE_SPI drvthis p in
  (known s = false /\
   rest = (-1, p, [Log RPT_ERR "%s: unknown ConnectionType: %s" [name drvthis; s]]))
  \/ (known s = true /\ malloc_ok drvthis = false /\ fst (fst rest) = -1)
  \/ (known s = true /\ malloc_ok drvthis = true /\
      exists ct log,
        ct <> SEVENSEG_CT_UNKNOWN
        /\ rest = (0, mkPrivateData (width p) (height p)
                        (memset SPACE (int_mul (width p) (height p))) ct, log)).
Proof.
  intros s rest. subst rest s. unfold init_rest, connectionMapping, known. cbv zeta.
  set (s := default "i2c"%string (config_ConnectionType drvthis)).
  destruct HAVE_I2C, HAVE_SPI; cbn [app find_connection cm_name andb orb];
    try destruct (strcasecmp_eq s "i2c"); try destruct (strcasecmp_eq s "spi");
    cbn [orb]; try (left; split; reflexivity);
    right; destruct (malloc_ok drvthis); cbn [negb];
    try (left; repeat split; reflexivity);
    right; (split; [reflexivity | split; [reflexivity | ]]);
    eexists _, _; (split; [ | reflexivity]); discriminate.
Qed.

(** X19: [sevenseg_init] returns 0 exactly when the private data could
    be allocated and stored, the connection type (default i2c, compared
    without regard to case) is one this build has, and the frame buffer
    could be allocated; otherwise it returns -1.  The search of the
    connection table always ends on an entry.  With an unknown
    connection type the function reports an error and leaves the frame
    buffer unallocated. *)
Theorem init_return_code drvthis :
  let s := default "i2c"%string (config_ConnectionType drvthis) in
  fst (fst (init drvthis)) =
    (if calloc_ok drvthis && (store_private_ptr drvthis =? 0) && known s
        && malloc_ok drvthis then 0 else -1)
  /\ is_Some (find_connection s (connectionMapping HAVE_I2C HAVE_SPI))
  /\ (calloc_ok drvthis = true -> store_private_ptr drvthis = 0 -> known s = false ->
      exists p log,
        init drvthis =
          (-1, Some p, log ++ [Log RPT_ERR "%s: unknown ConnectionType: %s"
                                   [name drvthis; s]])
        /\ framebuf p = []).
Proof.
  intros s. split; [ | split].
  - destruct (calloc_ok drvthis) eqn:Hc; [ | unfold init, sevenseg_init; rewrite Hc; reflexivity].
    destruct (Z.eqb_spec (store_private_ptr drvthis) 0) as [Hs | Hs].
    + rewrite (init_steps drvthis Hc Hs). cbn [fst snd andb].
      destruct (init_rest_cases drvthis
                  (fst (init_size LCD_MAX_WIDTH LCD_MAX_HEIGHT drvthis blank)))
        as [(Hk & Hr) | [(Hk & Hm & Hr) | (Hk & Hm & ct & log & _ & Hr)]];
        fold s in Hk; rewrite Hk, ?Hm; rewrite Hr; reflexivity.
    + unfold init, sevenseg_init. rewrite Hc. cbn [negb andb].
      unfold nonzero. apply Z.eqb_neq in Hs. rewrite Hs. reflexivity.
  - unfold connectionMapping.
    destruct HAVE_I2C, HAVE_SPI; cbn [app find_connection cm_name];
      try destruct (strcasecmp_eq s "i2c"); try destruct (strcasecmp_eq s "spi");
      eexists; reflexivity.
  - intros Hc Hs Hk. rewrite (init_steps drvthis Hc Hs).
    destruct (init_rest_cases drvthis
                (fst (init_size LCD_MAX_WIDTH LCD_MAX_HEIGHT drvthis blank)))
      as [(_ & Hr) | [(Hk' & _) | (Hk' & _)]]; try (fold s in Hk'; congruence).
    rewrite Hr. cbn [fst snd]. eexists _, _. split; [reflexivity | ].
    destruct (init_size_keeps drvthis blank) as (_ & _ & Hfb & _). exact Hfb.
Qed.

Lemma wrap_int_small x : - 2 ^ 31 <= x <= INT_MAX -> wrap_int x = x.
Proof.
  unfold wrap_int, INT_MAX. intros Hx.
  rewrite Z.mod_small by lia. lia.
Qed.

Lemma sscanf_default w0 h0 : sscanf_dxd SEVENSEG_DEFAULT_SIZE w0 h0 = (2, 20, 4).
Proof. reflexivity. Qed.

(** The sizes that [init_size] settles on have a product that fits an
    [int], as long as those of the primary driver and the two maxima
    have. *)
Lemma init_size_product drvthis p :
  (0 < request_display_width drvthis -> 0 < request_display_height drvthis ->
   request_display_width drvthis * request_display_height drvthis <= INT_MAX) ->
  LCD_MAX_WIDTH * LCD_MAX_HEIGHT <= INT_MAX ->
  let p1 := fst (init_size LCD_MAX_WIDTH LCD_MAX_HEIGHT drvthis p) in
  0 < width p1 * height p1 <= INT_MAX.
Proof.
  intros Hprim Hmax. unfold init_size.
  destruct (Z.ltb_spec 0 (request_display_width drvthis)) as [Hw | Hw];
    [destruct (Z.ltb_spec 0 (request_display_height drvthis)) as [Hh | Hh] | ];
    cbn [andb fst].
  1:{ cbn [width height set_size]. split; [apply Z.mul_pos_pos; assumption | auto]. }
  all: destruct (sscanf_dxd _ (width p) (height p)) as [[n w] h];
    cbn [width height set_size];
    destruct (Z.eqb_spec n 2), (Z.leb_spec w 0), (Z.ltb_spec LCD_MAX_WIDTH w),
             (Z.leb_spec h 0), (Z.ltb_spec LCD_MAX_HEIGHT h);
    cbn [negb orb]; rewrite ?sscanf_default; cbn [fst width height set_size];
    try (split; [reflexivity | discriminate]);
    (split; [apply Z.mul_pos_pos; lia | ]);
    (apply Z.le_trans with (LCD_MAX_WIDTH * LCD_MAX_HEIGHT); [ | exact Hmax]);
    apply Z.mul_le_mono_nonneg; lia.
Qed.

(** X20: whenever [sevenseg_init] returns 0 and the size of the frame
    buffer fits an [int] (the product of the sizes of the primary driver
    does, and so does the product of the two maxima), the private data
    it keeps has a positive width and height, a frame buffer of
    [width * height] cells that all hold a space, and a connection type
    other than unknown. *)
Theorem init_success_invariant drvthis :
  (0 < request_display_width drvthis -> 0 < request_display_height drvthis ->
   request_display_width drvthis * request_display_height drvthis <= INT_MAX) ->
  LCD_MAX_WIDTH * LCD_MAX_HEIGHT <= INT_MAX ->
  fst (fst (init drvthis)) = 0 ->
  exists p,
    snd (fst (init drvthis)) = Some p
    /\ wf_framebuf p
    /\ framebuf p = memset SPACE (width p * height p)
    /\ connectiontype p <> SEVENSEG_CT_UNKNOWN.
Proof.
  intros Hprim Hmax Hrc.
  destruct (calloc_ok drvthis) eqn:Hc;
    [ | unfold init, sevenseg_init in Hrc; rewrite Hc in Hrc; discriminate].
  destruct (Z.eqb_spec (store_private_ptr drvthis) 0) as [Hs | Hs].
  2:{ unfold init, sevenseg_init in Hrc. rewrite Hc in Hrc. cbn [negb] in Hrc.
      unfold nonzero in Hrc. apply Z.eqb_neq in Hs. rewrite Hs in Hrc. discriminate. }
  rewrite (init_steps drvthis Hc Hs) in *. cbn [fst snd] in *.
  destruct (init_size_keeps drvthis blank) as (HW & HH & _).
  pose proof (init_size_product drvthis blank Hprim Hmax) as Hprod. cbv zeta in Hprod.
  destruct (init_rest_cases drvthis
              (fst (init_size LCD_MAX_WIDTH LCD_MAX_HEIGHT drvthis blank)))
    as [(_ & Hr) | [(_ & _ & Hr) | (_ & _ & ct & log & Hct & Hr)]];
    rewrite Hr in *; cbn [fst snd] in *; try discriminate; try lia.
  eexists. split; [reflexivity | ].
  unfold wf_framebuf, memset, int_mul. cbn [width height framebuf connectiontype].
  rewrite wrap_int_small by (unfold INT_MAX in *; lia).
  rewrite repeat_length. repeat split; assumption.
Qed.

(** X21: when the primary driver reports a positive width and height,
    [sevenseg_init] takes them as they are, also above the maximum, and
    does not read its own [Size] setting: any other setting gives the
    same result. *)
Theorem init_primary_size drvthis size :
  calloc_ok drvthis = true ->
  store_private_ptr drvthis = 0 ->
  0 < request_display_width drvthis ->
  0 < request_display_height drvthis ->
  init (set_config_Size drvthis size) = init drvthis
  /\ exists p,
       snd (fst (init drvthis)) = Some p
       /\ width p = request_display_width drvthis
       /\ height p = request_display_height drvthis.
Proof.
  intros Hc Hs HW HH.
  assert (Hsize : forall d,
            request_display_width d = request_display_width drvthis ->
            request_display_height d = request_display_height drvthis ->
            init_size LCD_MAX_WIDTH LCD_MAX_HEIGHT d blank =
            (set_size blank (request_display_width drvthis)
                      (request_display_height drvthis), [])).
  { intros d Hdw Hdh. unfold init_size. rewrite Hdw, Hdh.
    destruct (Z.ltb_spec 0 (request_display_width drvthis)),
             (Z.ltb_spec 0 (request_display_height drvthis)); try lia. reflexivity. }
  split.
  - rewrite (init_steps drvthis Hc Hs), (init_steps (set_config_Size drvthis size) Hc Hs).
    rewrite !Hsize by reflexivity. reflexivity.
  - rewrite (init_steps drvthis Hc Hs). cbn [fst snd].
    rewrite Hsize by reflexivity. cbn [fst].
    destruct (init_rest_cases drvthis
                (set_size blank (request_display_width drvthis)
                          (request_display_height drvthis)))
      as [(_ & Hr) | [(_ & _ & Hr) | (_ & _ & ct & log & _ & Hr)]].
    + rewrite Hr. eexists. split; [reflexivity | split; reflexivity].
    + eexists. split; [reflexivity | ].
      unfold init_rest.
      destruct (find_connection _ _) as [[[cname|] ct' ift fn]|];
        try (split; reflexivity).
      destruct (malloc_ok drvthis); split; reflexivity.
    + rewrite Hr. eexists. split; [reflexivity | split; reflexivity].
Qed.

(** X22: when the driver reads its own [Size] setting and the setting
    scans as two numbers around an x that are positive and not above
    the maximum, [sevenseg_init] takes these numbers and reports no
    warning; what follows the second number is not looked at. *)
Theorem init_own_size drvthis w h :
  calloc_ok drvthis = true ->
  store_private_ptr drvthis = 0 ->
  (request_display_width drvthis <= 0 \/ request_display_height drvthis <= 0) ->
  sscanf_dxd (strncpy_buf (default SEVENSEG_DEFAULT_SIZE (config_Size drvthis))) 0 0 =
    (2, w, h) ->
  0 < w <= LCD_MAX_WIDTH ->
  0 < h <= LCD_MAX_HEIGHT ->
  init_size LCD_MAX_WIDTH LCD_MAX_HEIGHT drvthis blank = (set_size blank w h, [])
  /\ exists p,
       snd (fst (init drvthis)) = Some p /\ width p = w /\ height p = h.
Proof.
  intros Hc Hs Hprim Hscan Hw Hh.
  assert (Hsize : init_size LCD_MAX_WIDTH LCD_MAX_HEIGHT drvthis blank =
                  (set_size blank w h, [])).
  { unfold init_size.
    replace ((0 <? request_display_width drvthis) && (0 <? request_display_height drvthis))
      with false
      by (destruct (Z.ltb_spec 0 (request_display_width drvthis)),
                   (Z.ltb_spec 0 (request_display_height drvthis)); cbn; try reflexivity; lia).
    cbn [width height blank]. rewrite Hscan. cbn [width height set_size].
    destruct (Z.leb_spec w 0), (Z.ltb_spec LCD_MAX_WIDTH w),
             (Z.leb_spec h 0), (Z.ltb_spec LCD_MAX_HEIGHT h); try lia. reflexivity. }
  split; [exact Hsize | ].
  rewrite (init_steps drvthis Hc Hs). cbn [fst snd]. rewrite Hsize. cbn [fst].
  eexists. split; [reflexivity | ].
  unfold init_rest.
  destruct (find_connection _ _) as [[[cname|] ct' ift fn]|]; try (split; reflexivity).
  destruct (malloc_ok drvthis); split; reflexivity.
Qed.

End MoreInitFacts.

(** A build with i2c only asked for spi: the table ends on its last
    entry and the driver does not start. *)
Lemma init_return_code_witness :
  exists p log,
    sevenseg_init 256 256 true false
      (mkDriver "sevenseg" true 0 0 0 None (Some "spi"%string) true) =
    (-1, Some p, log ++ [Log RPT_ERR "%s: unknown ConnectionType: %s"
                             ["sevenseg"%string; "spi"%string]])
    /\ framebuf p = [].
Proof.
  destruct (init_return_code 256 256 true false
              (mkDriver "sevenseg" true 0 0 0 None (Some "spi"%string) true))
    as (_ & _ & H).
  exact (H eq_refl eq_refl eq_refl).
Defined.

(** A start with the settings left out: 20x4 over i2c. *)
Lemma init_success_invariant_witness :
  exists p,
    snd (fst (sevenseg_init 256 256 true true
                (mkDriver "sevenseg" true 0 0 0 None None true))) = Some p
    /\ wf_framebuf p
    /\ framebuf p = memset SPACE (width p * height p)
    /\ connectiontype p <> SEVENSEG_CT_UNKNOWN.
Proof.
  exact (init_success_invariant 256 256 true true
           (mkDriver "sevenseg" true 0 0 0 None None true)
           ltac:(cbn; lia) ltac:(vm_compute; discriminate) eq_refl).
Defined.

(** A primary driver of 300 columns: taken as it is, whatever the
    [Size] setting says. *)
Lemma init_primary_size_witness :
  sevenseg_init 256 256 true false
    (mkDriver "sevenseg" true 0 300 2 (Some "nonsense"%string) None true) =
  sevenseg_init 256 256 true false
    (mkDriver "sevenseg" true 0 300 2 (Some "16x2"%string) None true)
  /\ exists p,
       snd (fst (sevenseg_init 256 256 true false
                   (mkDriver "sevenseg" true 0 300 2 (Some "16x2"%string) None true))) =
       Some p
       /\ width p = 300 /\ height p = 2.
Proof.
  exact (init_primary_size 256 256 true false
           (mkDriver "sevenseg" true 0 300 2 (Some "16x2"%string) None true)
           (Some "nonsense"%string) eq_refl eq_refl ltac:(cbn; lia) ltac:(cbn; lia)).
Defined.

(** A size setting with something after the second number. *)
Lemma init_own_size_witness :
  exists p,
    snd (fst (sevenseg_init 256 256 true false
                (mkDriver "sevenseg" true 0 0 0 (Some "16x2 chars"%string) None true))) =
    Some p
    /\ width p = 16 /\ height p = 2.
Proof.
  destruct (init_own_size 256 256 true false
              (mkDriver "sevenseg" true 0 0 0 (Some "16x2 chars"%string) None true)
              16 2 eq_refl eq_refl ltac:(left; cbn; lia) eq_refl ltac:(lia) ltac:(lia))
    as (_ & H).
  exact H.
Defined.

End SevensegFacts.
